(** * Chunked intraday download: a shallow embedding of
      [cryptos/update_short-term-30days.py] and
      [stocks/update_stocks_datasets.py]

    The first script builds an [IntradayDataDownloader] whose constructor
    resolves the lookback and the chunk size from the sampling interval,
    walks the lookback in chunks calling the market-data provider once per
    chunk, normalises every returned table and finally concatenates and
    de-duplicates them.  The second script asks the provider once for every
    ticker of [stocks.txt] and every interval, and saves what it gets.

    Conventions of the embedding.
    - A [pd.Timestamp] is the integer count of nanoseconds since the epoch,
      a [timedelta] the integer count of nanoseconds it spans.
    - The two readings of the wall clock ([pd.Timestamp.now()] in the
      constructor and in [adjust_dates]) are parameters.
    - The provider ([yf.download], [yf.Ticker(...).history]) is an oracle: a
      function from the arguments of the call to either a table or a raised
      exception.  Exceptions are those that [except Exception] catches.
    - What the code prints, and what it asks of the file system, is recorded
      as a list of events.
    - The modules [IntradayDataDownloader], [CryptoMain] and [StocksMain]
      give the course of the code when nothing raises outside a [try]:
      arithmetic on times is exact and the calls of the file system succeed.
      The modules [Effects] and [StocksEffects] give the constructor,
      [download] and the equities run with the exceptions that leave them:
      those of [datetime.timedelta] and of the arithmetic of [pd.Timestamp]
      in the constructor, and those of [os.makedirs], [os.getcwd], [to_csv]
      and of reading [stocks.txt], which are oracles too.  The loop of
      [download] computes on times exactly in both. *)

From stdpp Require Import base decidable option list strings gmap.
From Stdlib Require Import ZArith Ascii Lia.

Local Open Scope string_scope.
Local Open Scope list_scope.
Local Open Scope Z_scope.

(** ** Tables: the part of pandas the scripts rely on *)
Module Frame.

(** A column label is a plain name or a tuple of names; a tuple label comes
    from two-level columns such as [('Open', 'BTC-USD')] and always has a
    leading component. *)
Inductive label : Type :=
  | Name (s : string)
  | Tuple (first : string) (rest : list string).

(** Cell contents.  [NaN] is the missing value, [Stamp] a timestamp, [Num] a
    number (prices and volumes are only moved around, never computed on, so
    an integer payload stands for them), [Text] a string. *)
Inductive value : Type :=
  | NaN
  | Stamp (ns : Z)
  | Num (x : Z)
  | Text (s : string).

#[global] Instance label_eq_dec : EqDecision label.
Proof. solve_decision. Defined.

#[global] Instance value_eq_dec : EqDecision value.
Proof. solve_decision. Defined.

(** One row: its entry in the index and its cells, one per column. *)
Record row : Type := Row { row_index : value; row_cells : list value }.

#[global] Instance row_eq_dec : EqDecision row.
Proof. solve_decision. Defined.

Record DataFrame : Type := mkDataFrame {
  columns : list label;
  index_name : option string;
  rows : list row
}.

#[global] Instance DataFrame_eq_dec : EqDecision DataFrame.
Proof. solve_decision. Defined.

(** Exceptions are identified by the name of their class. *)
Definition exn : Type := string.

(** [pd.DataFrame()] *)
Definition empty_frame : DataFrame :=
  {| columns := []; index_name := None; rows := [] |}.

(** [df.empty]: some axis has length zero. *)
Definition empty (df : DataFrame) : bool :=
  match columns df, rows df with
  | [], _ | _, [] => true
  | _, _ => false
  end.

(** The columns form a two-level (or deeper) index when there is at least one
    and every label is a tuple of one common length; the result is the
    number of levels. *)
Definition nlevels (cols : list label) : option nat :=
  match cols with
  | Tuple _ r :: _ =>
      if forallb (λ l, match l with
                       | Tuple _ r' => bool_decide (length r' = length r)
                       | Name _ => false
                       end) cols
      then Some (S (length r)) else None
  | _ => None
  end.

(** [key in df.columns].  On multi-level columns a plain key matches on the
    leading level. *)
Definition contains (cols : list label) (key : string) : bool :=
  match nlevels cols with
  | Some _ => existsb (λ l, match l with
                            | Tuple f _ => bool_decide (f = key)
                            | Name _ => false
                            end) cols
  | None => bool_decide (Name key ∈ cols)
  end.

(** The label under which [reset_index] inserts the old index: its name
    (["index"], or ["level_0"] when that is taken, for an unnamed index),
    padded with empty strings to the depth of multi-level columns. *)
Definition index_label (df : DataFrame) : label :=
  let name := match index_name df with
              | Some n => n
              | None => if contains (columns df) "index" then "level_0" else "index"
              end in
  match nlevels (columns df) with
  | Some n => Tuple name (replicate (pred n) "")
  | None => Name name
  end.

(** A fresh [RangeIndex]: row [i] is labelled [i]. *)
Definition range_index (rs : list row) : list row :=
  imap (λ i r, {| row_index := Num (Z.of_nat i); row_cells := row_cells r |}) rs.

(** [df.reset_index(inplace=True)]: the index becomes the first column and
    is replaced by a [RangeIndex]; inserting a label that is already a
    column raises [ValueError]. *)
Definition reset_index (df : DataFrame) : exn + DataFrame :=
  let l := index_label df in
  if bool_decide (l ∈ columns df) then inl "ValueError"
  else inr {| columns := l :: columns df;
              index_name := None;
              rows := range_index
                        (map (λ r, {| row_index := row_index r;
                                      row_cells := row_index r :: row_cells r |})
                             (rows df)) |}.

(** [df.rename(columns={old: new}, inplace=True)]: on single-level columns a
    label is looked up as it is, so that only the plain label [old] changes;
    on multi-level columns every component of every label is looked up. *)
Definition rename_label (old new : string) (l : label) : label :=
  match l with
  | Name s => if bool_decide (s = old) then Name new else l
  | Tuple _ _ => l
  end.

Definition rename_levels (old new : string) (l : label) : label :=
  let component s := if bool_decide (s = old) then new else s in
  match l with
  | Name s => Name (component s)
  | Tuple first rest => Tuple (component first) (component <$> rest)
  end.

Definition rename (old new : string) (df : DataFrame) : DataFrame :=
  {| columns := match nlevels (columns df) with
                | Some _ => rename_levels old new <$> columns df
                | None => rename_label old new <$> columns df
                end;
     index_name := index_name df;
     rows := rows df |}.

(** Keeping the first occurrence of every key, scanning from the front and
    remembering the keys already seen: what [keep='first'] does. *)
Fixpoint keep_first_from {A K : Type} `{EqDecision K}
    (key : A → K) (seen : list K) (l : list A) : list A :=
  match l with
  | [] => []
  | x :: l' =>
      if decide (key x ∈ seen) then keep_first_from key seen l'
      else x :: keep_first_from key (key x :: seen) l'
  end.

Definition keep_first {A K : Type} `{EqDecision K} (key : A → K) (l : list A) : list A :=
  keep_first_from key [] l.


(** [cols.get_loc(c)]: the position of the first column labelled [c]. *)
Fixpoint get_loc (c : label) (cols : list label) : option nat :=
  match cols with
  | [] => None
  | c' :: cols' => if decide (c' = c) then Some 0%nat else S <$> get_loc c cols'
  end.

(** Re-laying a row out from the columns [src] to the columns [dst]: a
    column that [src] lacks is filled with [NaN]. *)
Definition reindex (src dst : list label) (r : row) : row :=
  {| row_index := row_index r;
     row_cells := map (λ c, match get_loc c src with
                            | Some i => default NaN (row_cells r !! i)
                            | None => NaN
                            end) dst |}.

(** The rows of [df] laid out under the columns [cols]: as they are when
    [df] has these very labels, re-laid out otherwise. *)
Definition aligned (cols : list label) (df : DataFrame) : list row :=
  if decide (columns df = cols) then rows df
  else map (reindex (columns df) cols) (rows df).

(** [pd.concat(objs, ignore_index=True)].  Rows are appended in the order of
    [objs].  Tables that all have the same labels keep them; otherwise the
    result has the union of the labels, in order of first appearance, and
    re-laying a table out needs its labels to be unique. *)
Definition concat (objs : list DataFrame) : exn + DataFrame :=
  match objs with
  | [] => inl "ValueError"
  | df :: rest =>
      let same := forallb (λ d, bool_decide (columns d = columns df)) rest in
      let cols := if same then columns df else keep_first id (flat_map columns objs) in
      if same || forallb (λ d, bool_decide (NoDup (columns d))) objs
      then inr {| columns := cols; index_name := None;
                  rows := range_index (flat_map (aligned cols) objs) |}
      else inl "InvalidIndexError"
  end.

(** The cells of a row under the columns labelled [subset], all of them
    should the label occur more than once: the key on which
    [drop_duplicates(subset=...)] compares rows. *)
Definition subset_key (cols : list label) (subset : label) (r : row) : list value :=
  (filter (λ p, p.1 = subset) (zip cols (row_cells r))).*2.

(** [df.drop_duplicates(subset=label, keep='first', inplace=True)]: a label
    that is no column raises [KeyError]; the surviving rows keep their
    order and their index entries. *)
Definition drop_duplicates (subset : label) (df : DataFrame) : exn + DataFrame :=
  if bool_decide (subset ∈ columns df)
  then inr {| columns := columns df; index_name := index_name df;
              rows := keep_first (subset_key (columns df) subset) (rows df) |}
  else inl "KeyError".

End Frame.

(** ** The downloader class *)
Module IntradayDataDownloader.
Import Frame.

(** *** Time *)

(** Nanoseconds in a day. *)
Definition DAY : Z := 86400000000000.

(** [timedelta(days=n)] *)
Definition timedelta (days : Z) : Z := days * DAY.

(** [t.date()] and [t.strftime("%Y-%m-%d")]: the calendar day of a
    timestamp, identified by its number since the epoch. *)
Definition date (t : Z) : Z := t `div` DAY.

(** *** Events *)

Inductive message : Type :=
  | HistoricalDaysAdjusted
  | ChunkDaysAdjusted
  | EndDateAdjusted (end_day today : Z)
  | Downloading (from_day to_day : Z) (interval : string)
  | NoDataInPeriod
  | DownloadError (from_day to_day : Z) (e : exn)
  | Saved (filename : string)
  | NothingDownloaded.

(** A half-open window [[window_start, window_end)] of the walk. *)
Record DateWindow : Type := Window { window_start : Z; window_end : Z }.

Inductive event : Type :=
  | Print (m : message)
  | Makedirs (path : string)
  | Fetch (w : DateWindow)
  | ToCsv (filename : string) (df : DataFrame).

(** *** Construction *)

Record t : Type := mk {
  ticker : string;
  interval : string;
  output_dir : string;
  start_date : Z;
  end_date : Z;
  max_chunk : Z
}.

Definition minute_intervals : list string := ["1m"; "2m"; "5m"; "15m"; "30m"].
Definition hour_intervals : list string := ["60m"; "90m"; "1h"].

(** [x in xs] on strings. *)
Definition mem (x : string) (xs : list string) : bool := bool_decide (x ∈ xs).

(** Lines 41-54: the lookback in days and the notice printed on the way. *)
Definition resolve_historical_days (interval : string) (historical_days : option Z)
  : Z * list event :=
  match historical_days with
  | None =>
      if mem interval minute_intervals then (30, [])
      else if mem interval hour_intervals then (90, [])
      else (30, [])
  | Some h =>
      if mem interval minute_intervals && (30 <? h)
      then (30, [Print HistoricalDaysAdjusted])
      else (h, [])
  end.

(** Lines 61-69: the chunk size in days and the notice printed on the way. *)
Definition resolve_chunk_days (interval : string) (chunk_days : option Z)
  : Z * list event :=
  match chunk_days with
  | None => if bool_decide (interval = "1m") then (8, []) else (15, [])
  | Some c =>
      if bool_decide (interval = "1m") && (8 <? c)
      then (8, [Print ChunkDaysAdjusted])
      else (c, [])
  end.

(** [adjust_dates], reading the clock as [now]. *)
Definition adjust_dates (now : Z) (self : t) : t * list event :=
  if now <? end_date self
  then ({| ticker := ticker self; interval := interval self;
           output_dir := output_dir self; start_date := start_date self;
           end_date := now; max_chunk := max_chunk self |},
        [Print (EndDateAdjusted (date (end_date self)) (date now))])
  else (self, []).

(** The constructor.  [now] is the clock read on line 38, [now'] the clock
    read by [adjust_dates]. *)
Definition __init__ (now now' : Z) (ticker interval : string)
    (chunk_days historical_days : option Z) (output_dir : string)
  : t * list event :=
  let '(historical_days, out_h) := resolve_historical_days interval historical_days in
  let end_date := now in
  let start_date := now - timedelta historical_days + timedelta 1 in
  let '(chunk_days, out_c) := resolve_chunk_days interval chunk_days in
  let self := {| ticker := ticker; interval := interval; output_dir := output_dir;
                 start_date := start_date; end_date := end_date;
                 max_chunk := timedelta chunk_days |} in
  let '(self, out_a) := adjust_dates now' self in
  (self, Makedirs output_dir :: out_h ++ out_c ++ out_a).

(** *** Normalisation *)

(** Lines 90-95: a tuple label is replaced by its leading component. *)
Definition flatten_label (col : label) : label :=
  match col with
  | Tuple first _ => Name first
  | Name _ => col
  end.

Definition flatten_columns (df : DataFrame) : DataFrame :=
  let new_columns := map flatten_label (columns df) in
  let df := {| columns := new_columns; index_name := index_name df; rows := rows df |} in
  if contains (columns df) "Datetime" then rename "Datetime" "Date" df else df.

(** *** Download *)

(** [os.path.join(a, b)] for POSIX paths. *)
Definition path_join (a b : string) : string :=
  if String.prefix "/" b then b
  else if bool_decide (a = "") then b
  else if bool_decide (String.get (pred (String.length a)) a = Some "/"%char) then a +:+ b
  else a +:+ "/" +:+ b.

Section download.

(** [yf.download(ticker, start=..., end=..., interval=..., progress=False)] *)
Variable yf_download : string → Z → Z → string → exn + DataFrame.

(** The body of the [try] statement for the window
    [[current_start, current_end)]: the table to append, if any, and what is
    printed.  An exception raised by the provider or by the normalisation is
    caught. *)
Definition fetch_chunk (self : t) (current_start current_end : Z)
  : option DataFrame * list event :=
  match yf_download (ticker self) (date current_start) (date current_end) (interval self) with
  | inl e => (None, [Print (DownloadError (date current_start) (date current_end) e)])
  | inr df =>
      if negb (empty df) then
        match reset_index df with
        | inl e => (None, [Print (DownloadError (date current_start) (date current_end) e)])
        | inr df => (Some (flatten_columns df), [])
        end
      else (None, [Print NoDataInPeriod])
  end.

(** The variables the loop updates. *)
Record loop_state : Type := LoopState {
  current_start : Z;
  data_frames : list DataFrame;
  out : list event
}.

(** One iteration of the [while] loop (lines 114-134). *)
Definition loop_body (self : t) (st : loop_state) : loop_state :=
  let current_end := Z.min (current_start st + max_chunk self) (end_date self) in
  let '(df, printed) := fetch_chunk self (current_start st) current_end in
  {| current_start := current_end;
     data_frames := data_frames st ++ option_list df;
     out := out st
            ++ [Print (Downloading (date (current_start st)) (date current_end) (interval self));
                Fetch (Window (current_start st) current_end)]
            ++ printed |}.

(** The state on entry to the loop (lines 110-111). *)
Definition initial (self : t) : loop_state :=
  {| current_start := start_date self; data_frames := []; out := [] |}.

(** The [while] loop; [None] when [fuel] iterations do not reach its exit. *)
Fixpoint while_loop (fuel : nat) (self : t) (st : loop_state) : option loop_state :=
  if current_start st <? end_date self then
    match fuel with
    | O => None
    | S fuel => while_loop fuel self (loop_body self st)
    end
  else Some st.

(** Line 139: removal of the rows that repeat an earlier row on the label of
    the first column. *)
Definition drop_repeats (result : DataFrame) : exn + DataFrame :=
  match columns result with
  | [] => inl "IndexError"
  | first :: _ => drop_duplicates first result
  end.

(** Lines 137-139. *)
Definition aggregate (data_frames : list DataFrame) : exn + DataFrame :=
  match concat data_frames with
  | inl e => inl e
  | inr result => drop_repeats result
  end.

(** Lines 136-147. *)
Definition finish (self : t) (save_csv : bool) (data_frames : list DataFrame)
  : (exn + DataFrame) * list event :=
  match data_frames with
  | _ :: _ =>
      match aggregate data_frames with
      | inl e => (inl e, [])
      | inr result =>
          if save_csv then
            let filename := path_join (output_dir self)
                              (ticker self +:+ "_" +:+ interval self +:+ ".csv") in
            (inr result, [ToCsv filename result; Print (Saved filename)])
          else (inr result, [])
      end
  | [] => (inr empty_frame, [Print NothingDownloaded])
  end.

(** [download]: the value returned or the exception raised, and the events,
    in order. *)
Definition download (fuel : nat) (self : t) (save_csv : bool)
  : option ((exn + DataFrame) * list event) :=
  st ← while_loop fuel self (initial self);
  let '(result, printed) := finish self save_csv (data_frames st) in
  Some (result, out st ++ printed).

End download.

(** *** Reading the windows off a run *)

(** The windows for which the provider was called, in order. *)
Definition windows (evs : list event) : list DateWindow :=
  omap (λ e, match e with Fetch w => Some w | _ => None end) evs.

(** The files written, in order. *)
Definition written (evs : list event) : list string :=
  omap (λ e, match e with ToCsv f _ => Some f | _ => None end) evs.

Definition span (w : DateWindow) : Z := window_end w - window_start w.

(** The number of chunks of length [chunk] needed to go from [cur] to [e]. *)
Definition iterations (chunk e cur : Z) : nat :=
  Z.to_nat ((e - cur + chunk - 1) `div` chunk).

(** [ws] is the walk from [cur] to [e] in steps of [chunk]: every window
    starts where the previous one ended, ends at
    [min (start + chunk) e], and the last one ends at [e]. *)
Fixpoint walk (chunk e cur : Z) (ws : list DateWindow) : Prop :=
  match ws with
  | [] => e ≤ cur
  | w :: ws =>
      cur < e ∧ w = Window cur (Z.min (cur + chunk) e)
      ∧ walk chunk e (Z.min (cur + chunk) e) ws
  end.

End IntradayDataDownloader.

(** ** The equities script *)
Module Stocks.
Import Frame.

(** Lines 62-65 of [stocks/update_stocks_datasets.py]: the index becomes a
    column, and ["Datetime"] is renamed to ["Date"]. *)
Definition normalise (data : DataFrame) : exn + DataFrame :=
  match reset_index data with
  | inl e => inl e
  | inr data =>
      inr (if contains (columns data) "Datetime" then rename "Datetime" "Date" data
           else data)
  end.

End Stocks.

(** ** Strings: the methods of [str] the scripts call

    A character is a Unicode code point below 256. *)
Module Text.

(** [c.isspace()] *)
Definition is_space (c : ascii) : bool :=
  let n := N_of_ascii c in
  ((9 <=? n) && (n <=? 13) || (28 <=? n) && (n <=? 32)
   || (n =? 133) || (n =? 160))%N.

(** [c.lower()] *)
Definition lower_char (c : ascii) : ascii :=
  let n := N_of_ascii c in
  if ((65 <=? n) && (n <=? 90)
      || (192 <=? n) && (n <=? 222) && negb (n =? 215))%N
  then ascii_of_N (n + 32) else c.

(** [s.lower()] *)
Fixpoint lower (s : string) : string :=
  match s with
  | EmptyString => EmptyString
  | String c s => String (lower_char c) (lower s)
  end.

(** [s.lstrip()] on the characters of [s]. *)
Fixpoint lstrip (l : list ascii) : list ascii :=
  match l with
  | c :: l' => if is_space c then lstrip l' else l
  | [] => []
  end.

(** Nothing for [lstrip] to take away. *)
Definition clean_front (l : list ascii) : Prop :=
  match l with
  | [] => True
  | c :: _ => is_space c = false
  end.

(** [s.strip()] *)
Definition strip (s : string) : string :=
  String.string_of_list_ascii
    (rev (lstrip (rev (lstrip (String.list_ascii_of_string s))))).

(** [s.startswith(p)] *)
Definition startswith (s p : string) : bool := String.prefix p s.

(** [s.split(sep)[0]] for a separator of one character: what comes before
    its first occurrence, all of [s] when there is none. *)
Fixpoint before (sep : ascii) (s : string) : string :=
  match s with
  | EmptyString => EmptyString
  | String c s => if bool_decide (c = sep) then EmptyString else String c (before sep s)
  end.

End Text.

(** ** What a download leaves behind *)
Module Run.
Import Frame IntradayDataDownloader.

(** The calls of [to_csv], in order: the file and the table written to it. *)
Definition saved (evs : list event) : list (string * DataFrame) :=
  omap (λ e, match e with ToCsv f df => Some (f, df) | _ => None end) evs.

(** Line 141: the file a downloader writes to. *)
Definition filename (self : IntradayDataDownloader.t) : string :=
  path_join (output_dir self) (ticker self +:+ "_" +:+ interval self +:+ ".csv").

(** The first cells of the rows of a table. *)
Definition keys (rs : list row) : list (option value) := head ∘ row_cells <$> rs.

End Run.

(** ** The downloader with the exceptions that leave it

    [IntradayDataDownloader.__init__] and [IntradayDataDownloader.download]
    are the course of a call during which neither the time types nor the
    file system raise.  Here the constructor and [download] are given with
    the exceptions of [os.makedirs] (line 36), of [timedelta(days=...)] and
    of the arithmetic on [now] (lines 58 and 71) and of [to_csv] (line 142),
    none of which stands in a [try]. *)
Module Effects.
Import Frame IntradayDataDownloader.

(** The range of the time types of pandas, in nanoseconds: the least and
    the greatest [pd.Timestamp], and the greatest magnitude of a
    [pd.Timedelta]. *)
Record limits : Type := Limits {
  timestamp_min : Z;
  timestamp_max : Z;
  timedelta_max : Z
}.

(** [pd.Timestamp.min], [pd.Timestamp.max] and [pd.Timedelta.max] at
    nanosecond resolution. *)
Definition pandas_ns : limits :=
  {| timestamp_min := -9223372036854775807;
     timestamp_max := 9223372036854775807;
     timedelta_max := 9223372036854775807 |}.

(** The greatest magnitude of the days of a [datetime.timedelta]. *)
Definition MAX_DELTA_DAYS : Z := 999999999.

(** [timedelta(days=n)]: [OverflowError] beyond [MAX_DELTA_DAYS]. *)
Definition checked_timedelta (days : Z) : exn + Z :=
  if Z.abs days <=? MAX_DELTA_DAYS then inr (timedelta days) else inl "OverflowError".

(** [t + delta] for a [pd.Timestamp] and a [datetime.timedelta]: the
    timedelta must fit a [pd.Timedelta] and the sum a [pd.Timestamp]. *)
Definition shift (lim : limits) (t delta : Z) : exn + Z :=
  if Z.abs delta <=? timedelta_max lim then
    if (timestamp_min lim <=? t + delta) && (t + delta <=? timestamp_max lim)
    then inr (t + delta)
    else inl "OutOfBoundsDatetime"
  else inl "OutOfBoundsTimedelta".

(** Line 58: [now - timedelta(days=historical_days) + timedelta(days=1)]. *)
Definition start_of (lim : limits) (now historical_days : Z) : exn + Z :=
  match checked_timedelta historical_days with
  | inl e => inl e
  | inr back =>
      match shift lim now (- back) with
      | inl e => inl e
      | inr earlier => shift lim earlier (timedelta 1)
      end
  end.

Section construct.

Variable lim : limits.

(** [os.makedirs(path, exist_ok=True)]: the exception it raises, if any. *)
Variable makedirs : string → option exn.

(** The call [IntradayDataDownloader(ticker, interval, chunk_days,
    historical_days, output_dir)]: the downloader or the exception raised,
    and the events up to there. *)
Definition construct (now now' : Z) (ticker interval : string)
    (chunk_days historical_days : option Z) (output_dir : string)
  : (exn + IntradayDataDownloader.t) * list event :=
  match makedirs output_dir with
  | Some e => (inl e, [Makedirs output_dir])
  | None =>
      let '(historical_days, out_h) := resolve_historical_days interval historical_days in
      let end_date := now in
      match start_of lim now historical_days with
      | inl e => (inl e, Makedirs output_dir :: out_h)
      | inr start_date =>
          let '(chunk_days, out_c) := resolve_chunk_days interval chunk_days in
          match checked_timedelta chunk_days with
          | inl e => (inl e, Makedirs output_dir :: out_h ++ out_c)
          | inr max_chunk =>
              let self := {| ticker := ticker; interval := interval;
                             output_dir := output_dir; start_date := start_date;
                             end_date := end_date; max_chunk := max_chunk |} in
              let '(self, out_a) := adjust_dates now' self in
              (inr self, Makedirs output_dir :: out_h ++ out_c ++ out_a)
          end
      end
  end.

End construct.

Section download.

Variable yf_download : string → Z → Z → string → exn + DataFrame.

(** [result.to_csv(filename, index=False, lineterminator=...)]: the
    exception it raises, if any. *)
Variable to_csv : string → DataFrame → option exn.

(** Lines 136-147.  [ToCsv] records the call of [to_csv]; what it raises
    leaves [download]. *)
Definition finish (self : IntradayDataDownloader.t) (save_csv : bool)
    (data_frames : list DataFrame) : (exn + DataFrame) * list event :=
  match data_frames with
  | _ :: _ =>
      match aggregate data_frames with
      | inl e => (inl e, [])
      | inr result =>
          if save_csv then
            let filename := path_join (output_dir self)
                              (ticker self +:+ "_" +:+ interval self +:+ ".csv") in
            match to_csv filename result with
            | Some e => (inl e, [ToCsv filename result])
            | None => (inr result, [ToCsv filename result; Print (Saved filename)])
            end
          else (inr result, [])
      end
  | [] => (inr empty_frame, [Print NothingDownloaded])
  end.

(** [download]: the value returned or the exception raised, and the events,
    in order. *)
Definition download (fuel : nat) (self : IntradayDataDownloader.t) (save_csv : bool)
  : option ((exn + DataFrame) * list event) :=
  st ← while_loop yf_download fuel self (initial self);
  let '(result, printed) := finish self save_csv (data_frames st) in
  Some (result, out st ++ printed).

End download.

End Effects.

(** ** The batch run of the first script (lines 150-185) *)
Module CryptoMain.
Import Frame IntradayDataDownloader.

Inductive message : Type :=
  | Rule
  | Processing (ticker : string)
  | Dashes
  | Starting (interval : string).

(** What the run prints itself, and what the downloaders it builds do. *)
Inductive event : Type :=
  | Say (m : message)
  | Downloader (e : IntradayDataDownloader.event).

Definition intervalos : list string :=
  ["1m"; "2m"; "5m"; "15m"; "30m"; "60m"; "90m"; "1h"].

Definition historicos : gmap string Z :=
  list_to_map [("1m", 30); ("2m", 30); ("5m", 30); ("15m", 30); ("30m", 30);
               ("60m", 90); ("90m", 60); ("1h", 90)].

(** Line 174. *)
Definition folder_name (ticker : string) : string :=
  Text.lower (Text.before "-" ticker).

(** Line 175. *)
Definition output_directory (ticker : string) : string :=
  path_join (path_join (folder_name ticker) "intraday") "short-term".

(** A [for] loop whose body may raise: the iterations run in order, each
    told how many came before it, until one raises or, for want of fuel,
    does not return. *)
Fixpoint for_each {A : Type} (body : nat → A → option ((exn + unit) * list event))
    (done : nat) (l : list A) : option ((exn + unit) * list event) :=
  match l with
  | [] => Some (inr (), [])
  | x :: l =>
      '(r, evs) ← body done x;
      match r with
      | inl e => Some (inl e, evs)
      | inr _ => '(r', evs') ← for_each body (S done) l; Some (r', evs ++ evs')
      end
  end.

Section main.

Variable yf_download : string → Z → Z → string → exn + DataFrame.

(** [clock k] is what the [k]-th call of [pd.Timestamp.now()] returns. *)
Variable clock : nat → Z.

(** Lines 177-185: the downloader of one ticker and one interval is built
    and run.  It is the [pair]-th downloader of the run; each reads the
    clock twice. *)
Definition run_interval (fuel : nat) (ticker : string) (pair : nat) (interval : string)
  : option ((exn + unit) * list event) :=
  let '(hd, built) :=
    __init__ (clock (2 * pair)) (clock (2 * pair + 1)) ticker interval
      None (historicos !! interval) (output_directory ticker) in
  '(df_intraday, evs) ← download yf_download fuel hd true;
  Some (match df_intraday with inl e => inl e | inr _ => inr () end,
        [Say Dashes; Say (Starting interval)] ++ (Downloader <$> built ++ evs)).

(** Lines 170-185: one ticker, the [n]-th of the list. *)
Definition run_ticker (fuel : nat) (n : nat) (ticker : string)
  : option ((exn + unit) * list event) :=
  '(r, evs) ← for_each (λ j, run_interval fuel ticker (length intervalos * n + j))
                0 intervalos;
  Some (r, [Say Rule; Say (Processing ticker)] ++ evs).

(** Lines 169-185, for the list of tickers read from [cryptos.txt]. *)
Definition main (fuel : nat) (tickers : list string) : option ((exn + unit) * list event) :=
  for_each (run_ticker fuel) 0 tickers.

End main.

(** The calls of the provider, in order. *)
Definition fetches (evs : list event) : list DateWindow :=
  omap (λ e, match e with Downloader (Fetch w) => Some w | _ => None end) evs.

(** The files written, in order. *)
Definition files (evs : list event) : list string :=
  omap (λ e, match e with Downloader (ToCsv f _) => Some f | _ => None end) evs.

(** The number of windows in the walk of the downloader that the run builds
    for [interval], when the clock does not run backwards. *)
Definition requests (interval : string) : nat :=
  let h := (resolve_historical_days interval (historicos !! interval)).1 in
  let c := (resolve_chunk_days interval None).1 in
  iterations (timedelta c) (timedelta h) (timedelta 1).

End CryptoMain.

(** ** The batch run of the equities script *)
Module StocksMain.
Import Frame.

Inductive message : Type :=
  | TickerFileNotFound
  | Processing (ticker : string)
  | Downloading (interval period ticker : string)
  | DownloadError (ticker interval : string) (e : exn)
  | NoData (ticker interval : string)
  | Saved (output_file : string)
  | SaveError (output_file : string) (e : exn).

(** [History] is a call of [yf.Ticker(ticker).history(interval, period)],
    [ToCsv] a call of [data.to_csv]. *)
Inductive event : Type :=
  | Print (m : message)
  | Makedirs (path : string)
  | History (ticker interval period : string)
  | ToCsv (output_file : string) (data : DataFrame).

Definition intervals : list string :=
  ["1m"; "2m"; "5m"; "15m"; "30m"; "60m"; "90m"; "1h"; "1d"; "5d"; "1wk"; "1mo"; "3mo"].

Definition periodos_por_intervalo : gmap string string :=
  list_to_map [("1m", "7d"); ("2m", "60d"); ("5m", "60d"); ("15m", "60d");
               ("30m", "60d"); ("60m", "730d"); ("90m", "60d"); ("1h", "730d");
               ("1d", "max"); ("5d", "max"); ("1wk", "max"); ("1mo", "max");
               ("3mo", "max")].

(** Line 33, on the lines of [stocks.txt]: blank lines and comments are
    left out, the others are stripped. *)
Definition read_tickers (f : list string) : list string :=
  Text.strip <$> filter (λ line, Text.strip line ≠ ""
                                 ∧ Text.startswith (Text.strip line) "#" = false) f.

(** A [for] loop whose body may raise. *)
Fixpoint for_each {A : Type} (body : A → (exn + unit) * list event) (l : list A)
  : (exn + unit) * list event :=
  match l with
  | [] => (inr (), [])
  | x :: l =>
      let '(r, evs) := body x in
      match r with
      | inl e => (inl e, evs)
      | inr _ => let '(r', evs') := for_each body l in (r', evs ++ evs')
      end
  end.

Section main.

(** [yf.Ticker(ticker).history(interval=..., period=...)] *)
Variable history : string → string → string → exn + DataFrame.

(** [data.to_csv(output_file, index=False)]: the exception it raises, if any. *)
Variable to_csv : string → DataFrame → option exn.

(** [os.getcwd()] *)
Variable cwd : string.

(** Lines 50-73.  The two [try] statements catch what the provider and the
    writer raise; what [reset_index] raises is not caught. *)
Definition run_interval (ticker folder interval : string) : (exn + unit) * list event :=
  let periodo := default "max" (periodos_por_intervalo !! interval) in
  let asked := [Print (Downloading interval periodo ticker);
                History ticker interval periodo] in
  match history ticker interval periodo with
  | inl e => (inr (), asked ++ [Print (DownloadError ticker interval e)])
  | inr data =>
      if empty data then (inr (), asked ++ [Print (NoData ticker interval)])
      else
        match Stocks.normalise data with
        | inl e => (inl e, asked)
        | inr data =>
            let output_file :=
              IntradayDataDownloader.path_join folder
                (ticker +:+ "_" +:+ interval +:+ ".csv") in
            match to_csv output_file data with
            | None => (inr (), asked ++ [ToCsv output_file data; Print (Saved output_file)])
            | Some e => (inr (), asked ++ [ToCsv output_file data;
                                            Print (SaveError output_file e)])
            end
        end
  end.

(** Lines 40-73. *)
Definition run_ticker (ticker : string) : (exn + unit) * list event :=
  let folder := IntradayDataDownloader.path_join cwd ticker in
  let '(r, evs) := for_each (run_interval ticker folder) intervals in
  (r, [Print (Processing ticker); Makedirs folder] ++ evs).

(** The period asked for an interval (line 50). *)
Definition period (interval : string) : string :=
  default "max" (periodos_por_intervalo !! interval).

(** The file of a ticker and an interval (lines 42 and 68). *)
Definition output_file (ticker interval : string) : string :=
  IntradayDataDownloader.path_join (IntradayDataDownloader.path_join cwd ticker)
    (ticker +:+ "_" +:+ interval +:+ ".csv").

(** The table a ticker and an interval end up with, if any: what the
    provider returns, when it has rows and can be normalised. *)
Definition table (ticker interval : string) : option DataFrame :=
  match history ticker interval (period interval) with
  | inr data =>
      if empty data then None
      else match Stocks.normalise data with inr data => Some data | inl _ => None end
  | inl _ => None
  end.

(** Normalising raises for no table with rows that the provider returns. *)
Definition normalisable : Prop :=
  ∀ ticker interval data,
    history ticker interval (period interval) = inr data → empty data = false →
    ∃ data', Stocks.normalise data = inr data'.

(** [main]; [stocks_txt] holds the lines of [stocks.txt], or nothing when
    the file is not found. *)
Definition main (stocks_txt : option (list string)) : (exn + unit) * list event :=
  match stocks_txt with
  | None => (inr (), [Print TickerFileNotFound])
  | Some f => for_each run_ticker (read_tickers f)
  end.

End main.

(** The calls of the provider, in order. *)
Definition asked (evs : list event) : list (string * string * string) :=
  omap (λ e, match e with History t i p => Some (t, i, p) | _ => None end) evs.

(** The calls of [to_csv], in order. *)
Definition saves (evs : list event) : list (string * DataFrame) :=
  omap (λ e, match e with ToCsv f d => Some (f, d) | _ => None end) evs.

End StocksMain.

(** ** The equities run with the exceptions that leave it

    [os.getcwd] and [os.makedirs] (lines 42 and 43) stand in no [try], and
    of the exceptions of reading [stocks.txt] only [FileNotFoundError] is
    caught. *)
Module StocksEffects.
Import Frame StocksMain.

Section main.

Variable history : string → string → string → exn + DataFrame.
Variable to_csv : string → DataFrame → option exn.

(** [os.getcwd()]: the working directory, or the exception raised. *)
Variable getcwd : exn + string.

(** [os.makedirs(path, exist_ok=True)]: the exception it raises, if any. *)
Variable makedirs : string → option exn.

(** Lines 40-73. *)
Definition run_ticker (ticker : string) : (exn + unit) * list event :=
  match getcwd with
  | inl e => (inl e, [Print (Processing ticker)])
  | inr cwd =>
      let folder := IntradayDataDownloader.path_join cwd ticker in
      match makedirs folder with
      | Some e => (inl e, [Print (Processing ticker); Makedirs folder])
      | None =>
          let '(r, evs) := for_each (run_interval history to_csv ticker folder) intervals in
          (r, [Print (Processing ticker); Makedirs folder] ++ evs)
      end
  end.

(** [main]; [stocks_txt] is what reading [stocks.txt] gives: its lines, or
    the exception raised by [open] or while reading. *)
Definition main (stocks_txt : exn + list string) : (exn + unit) * list event :=
  match stocks_txt with
  | inl e =>
      if bool_decide (e = "FileNotFoundError") then (inr (), [Print TickerFileNotFound])
      else (inl e, [])
  | inr f => for_each run_ticker (read_tickers f)
  end.

(** No directory of a ticker of [f] fails to be made. *)
Definition folders_can_be_made (cwd : string) (f : list string) : Prop :=
  ∀ ticker, ticker ∈ read_tickers f →
    makedirs (IntradayDataDownloader.path_join cwd ticker) = None.

End main.

End StocksEffects.

(** ** Sample inputs *)
Module Sample.
Import Frame IntradayDataDownloader.

(** Noon of 4 November 2026. *)
Definition noon : Z := 1793793600000000000.

(** A provider that is down. *)
Definition offline : string → Z → Z → string → exn + DataFrame :=
  λ _ _ _ _, inl "ConnectionError".

(** The downloader of the one-minute series, as the script builds it. *)
Definition btc_1m : IntradayDataDownloader.t :=
  (__init__ noon noon "BTC-USD" "1m" None (Some 30) "btc/intraday/short-term").1.

(** Two normalised fragments that overlap on the second day. *)
Definition early : DataFrame :=
  {| columns := [Name "Date"; Name "Close"]; index_name := None;
     rows := [Row (Num 0) [Stamp 1; Num 10]; Row (Num 1) [Stamp 2; Num 11]] |}.


(** Two one-minute bars of the day [day], as the provider returns them. *)
Definition bars (day : Z) : DataFrame :=
  {| columns := [Tuple "Close" ["BTC-USD"]; Tuple "Volume" ["BTC-USD"]];
     index_name := Some "Datetime";
     rows := [Row (Stamp (day * DAY)) [Num 10; Num 100];
              Row (Stamp (day * DAY + 60000000000)) [Num 11; Num 90]] |}.

(** A provider that, by the day a window starts on, raises, returns a table
    without rows, or returns two bars. *)
Definition flaky : string → Z → Z → string → exn + DataFrame :=
  λ _ from_day _ _,
    if from_day `mod` 3 =? 0 then inl "ConnectionError"
    else if from_day `mod` 3 =? 1 then
      inr {| columns := [Tuple "Close" ["BTC-USD"]; Tuple "Volume" ["BTC-USD"]];
             index_name := Some "Datetime"; rows := [] |}
    else inr (bars from_day).

(** A table whose index is named like one of its columns. *)
Definition clashing : DataFrame :=
  {| columns := [Name "Datetime"; Name "Close"]; index_name := Some "Datetime";
     rows := [Row (Stamp 1) [Stamp 1; Num 10]] |}.

(** Daily bars as [history] returns them. *)
Definition daily : DataFrame :=
  {| columns := [Name "Open"; Name "Close"]; index_name := Some "Date";
     rows := [Row (Stamp 1) [Num 9; Num 10]; Row (Stamp 2) [Num 10; Num 11]] |}.

(** A clock that advances by a nanosecond from one reading to the next. *)
Definition ticking (k : nat) : Z := noon + Z.of_nat k.




(** A file system on which nothing can be written. *)
Definition read_only : string → DataFrame → option exn := λ _ _, Some "OSError".

(** A file system on which the directory [taken] cannot be made, a file of
    that name being there. *)
Definition no_folder_for (taken : string) : string → option exn :=
  λ path, if bool_decide (path = taken) then Some "FileExistsError" else None.

End Sample.

Import Frame IntradayDataDownloader.

(** * The window walk *)
Section window_walk.

Variable yf_download : string → Z → Z → string → exn + DataFrame.
Variable self : IntradayDataDownloader.t.

Local Abbreviation loop := (while_loop yf_download).
Local Abbreviation body := (loop_body yf_download self).
Local Abbreviation fragment w :=
  (fetch_chunk yf_download self (window_start w) (window_end w)).1.

Lemma windows_app evs evs' : windows (evs ++ evs') = windows evs ++ windows evs'.
Proof. apply omap_app. Qed.

Lemma written_app evs evs' : written (evs ++ evs') = written evs ++ written evs'.
Proof. apply omap_app. Qed.

Lemma fetch_chunk_quiet s e :
  windows (fetch_chunk yf_download self s e).2 = []
  ∧ written (fetch_chunk yf_download self s e).2 = [].
Proof.
  unfold fetch_chunk.
  destruct (yf_download _ _ _ _) as [x|df]; [done|].
  destruct (empty df); [done|]. simpl.
  by destruct (reset_index df).
Qed.

Lemma body_cursor st :
  current_start (body st) = Z.min (current_start st + max_chunk self) (end_date self).
Proof. unfold loop_body. by destruct (fetch_chunk _ _ _ _). Qed.

Lemma body_frames st :
  data_frames (body st)
  = data_frames st
    ++ option_list (fragment (Window (current_start st) (current_start (body st)))).
Proof. rewrite body_cursor. unfold loop_body. simpl. by destruct (fetch_chunk _ _ _ _). Qed.

Lemma body_windows st :
  windows (out (body st))
  = windows (out st) ++ [Window (current_start st) (current_start (body st))].
Proof.
  rewrite body_cursor. unfold loop_body.
  pose proof (fetch_chunk_quiet (current_start st)
    (Z.min (current_start st + max_chunk self) (end_date self))) as [Hq _].
  destruct (fetch_chunk _ _ _ _) as [df printed]. simpl in *.
  rewrite windows_app. f_equal. unfold windows in *. simpl. f_equal. exact Hq.
Qed.

Lemma body_written st : written (out (body st)) = written (out st).
Proof.
  unfold loop_body.
  pose proof (fetch_chunk_quiet (current_start st)
    (Z.min (current_start st + max_chunk self) (end_date self))) as [_ Hq].
  destruct (fetch_chunk _ _ _ _) as [df printed]. simpl in *.
  rewrite written_app. unfold written in *. simpl.
  change (list_omap _ _ ?f printed) with (omap f printed).
  by rewrite Hq, app_nil_r.
Qed.


(** More fuel does not change the outcome of a run that exits. *)
Lemma loop_fuel_mono fuel fuel' st st' :
  loop fuel self st = Some st' → (fuel ≤ fuel')%nat → loop fuel' self st = Some st'.
Proof.
  revert fuel' st. induction fuel as [|fuel IH]; intros fuel' st Hrun Hle.
  - simpl in Hrun. destruct fuel'; simpl; by destruct (_ <? _).
  - destruct fuel' as [|fuel']; [lia|]. simpl in *.
    destruct (_ <? _); [|done]. apply IH; [done|lia].
Qed.

Lemma loop_deterministic fuel fuel' st st1 st2 :
  loop fuel self st = Some st1 → loop fuel' self st = Some st2 → st1 = st2.
Proof.
  intros H1 H2.
  destruct (Nat.le_ge_cases fuel fuel') as [Hle|Hle].
  - apply (loop_fuel_mono _ _ _ _ H1) in Hle. congruence.
  - apply (loop_fuel_mono _ _ _ _ H2) in Hle. congruence.
Qed.

(** With a positive chunk the loop exits within as many iterations as
    chunks fit between the cursor and the end. *)
Lemma loop_exits fuel st :
  0 < max_chunk self →
  end_date self - current_start st ≤ Z.of_nat fuel * max_chunk self →
  is_Some (loop fuel self st).
Proof.
  intros Hpos. revert st. induction fuel as [|fuel IH]; intros st Hfuel; simpl.
  - destruct (Z.ltb_spec (current_start st) (end_date self)); [lia|done].
  - destruct (Z.ltb_spec (current_start st) (end_date self)); [|done].
    apply IH. rewrite body_cursor. lia.
Qed.

(** A loop that cannot advance never exits. *)
Lemma loop_diverges fuel st :
  max_chunk self ≤ 0 → current_start st < end_date self → loop fuel self st = None.
Proof.
  intros Hneg. revert st. induction fuel as [|fuel IH]; intros st Hlt; simpl.
  - by destruct (Z.ltb_spec (current_start st) (end_date self)); [|lia].
  - destruct (Z.ltb_spec (current_start st) (end_date self)); [|lia].
    apply IH. rewrite body_cursor. lia.
Qed.

(** What a run that exits has done: it fetched the windows of the walk from
    its cursor to the end, and appended the tables of those that gave one. *)
Lemma loop_run fuel st st' :
  loop fuel self st = Some st' →
  ∃ ws, walk (max_chunk self) (end_date self) (current_start st) ws
        ∧ windows (out st') = windows (out st) ++ ws
        ∧ written (out st') = written (out st)
        ∧ data_frames st' = data_frames st ++ omap (λ w, fragment w) ws.
Proof.
  revert st. induction fuel as [|fuel IH]; intros st; simpl.
  - destruct (Z.ltb_spec (current_start st) (end_date self)); [done|].
    intros [= <-]. exists []. by rewrite !app_nil_r.
  - destruct (Z.ltb_spec (current_start st) (end_date self)).
    + intros (ws & Hwalk & Hws & Hwr & Hdf)%IH.
      exists (Window (current_start st) (current_start (body st)) :: ws).
      rewrite body_cursor in Hwalk |- *. split_and!.
      * done.
      * rewrite Hws, body_windows, body_cursor. by rewrite <-app_assoc.
      * by rewrite Hwr, body_written.
      * rewrite Hdf, body_frames, body_cursor, <-app_assoc. f_equal. simpl.
        by destruct (fetch_chunk _ _ _ _).1.
    + intros [= <-]. exists []. by rewrite !app_nil_r.
Qed.

End window_walk.

(** * Shape of a walk *)
Section walk.

Variables chunk e : Z.
Hypothesis chunk_pos : 0 < chunk.







Lemma walk_cover cur ws t :
  walk chunk e cur ws →
  (∃ w, w ∈ ws ∧ window_start w ≤ t < window_end w) ↔ cur ≤ t < e.
Proof.
  revert cur. induction ws as [|w0 ws IH]; intros cur Hwalk.
  - simpl in Hwalk. split; [|lia]. by intros (w & ?%elem_of_nil & _).
  - destruct Hwalk as (Hlt & -> & Hwalk). specialize (IH _ Hwalk). split.
    + intros (w & [->|Hin]%elem_of_cons & Ht); simpl in *; [lia|].
      assert (Z.min (cur + chunk) e ≤ t < e) by (apply IH; eauto). lia.
    + intros Ht. destruct (Z.lt_ge_cases t (Z.min (cur + chunk) e)) as [Hlo|Hhi].
      * eexists. split; [apply elem_of_cons; by left|]. simpl. lia.
      * destruct IH as [_ (w & Hin & Hw)]; [lia|].
        exists w. split; [apply elem_of_cons; by right|done].
Qed.

Lemma walk_length cur ws :
  walk chunk e cur ws → cur ≤ e →
  Z.of_nat (length ws) = (e - cur + chunk - 1) `div` chunk.
Proof.
  revert cur. induction ws as [|w0 ws IH]; intros cur Hwalk Hle.
  - simpl in Hwalk. assert (e = cur) as -> by lia.
    replace (cur - cur + chunk - 1) with (chunk - 1) by lia.
    rewrite Z.div_small; [done|lia].
  - destruct Hwalk as (Hlt & -> & Hwalk).
    rewrite length_cons, Nat2Z.inj_succ, (IH _ Hwalk) by lia.
    destruct (Z.le_gt_cases (cur + chunk) e) as [Hfit|Hcut].
    + rewrite Z.min_l by done.
      replace (e - cur + chunk - 1) with ((e - (cur + chunk) + chunk - 1) + 1 * chunk) by lia.
      rewrite Z.div_add by lia. lia.
    + rewrite Z.min_r by lia.
      replace (e - e + chunk - 1) with (chunk - 1) by lia.
      rewrite Z.div_small by lia.
      apply Z.div_unique with (r := e - cur - 1); lia.
Qed.

Lemma walk_unique cur ws ws' : walk chunk e cur ws → walk chunk e cur ws' → ws = ws'.
Proof.
  revert cur ws'. induction ws as [|w ws IH]; intros cur [|w' ws']; simpl; try lia.
  - done.
  - intros (_ & -> & H) (_ & -> & H'). f_equal. by eapply IH.
Qed.

End walk.

(** * Policy resolution *)
Section resolver.

Lemma mem_spec x xs : mem x xs = true ↔ x ∈ xs.
Proof. unfold mem. by rewrite bool_decide_eq_true. Qed.

Lemma init_fields now now' ticker interval chunk_days historical_days output_dir :
  let self := (__init__ now now' ticker interval chunk_days historical_days output_dir).1 in
  start_date self
  = now - timedelta (resolve_historical_days interval historical_days).1 + timedelta 1
  ∧ end_date self = Z.min now now'
  ∧ max_chunk self = timedelta (resolve_chunk_days interval chunk_days).1
  ∧ IntradayDataDownloader.ticker self = ticker
  ∧ IntradayDataDownloader.interval self = interval.
Proof.
  unfold __init__.
  destruct (resolve_historical_days _ _) as [h out_h].
  destruct (resolve_chunk_days _ _) as [c out_c].
  unfold adjust_dates. simpl.
  destruct (Z.ltb_spec now' now); simpl; split_and!; try done; lia.
Qed.

Variable lim : Effects.limits.
Variable makedirs : string → option exn.

Local Abbreviation construct := (Effects.construct lim makedirs).

Lemma checked_timedelta_returns days delta :
  Effects.checked_timedelta days = inr delta
  ↔ Z.abs days ≤ Effects.MAX_DELTA_DAYS ∧ delta = timedelta days.
Proof.
  unfold Effects.checked_timedelta.
  destruct (Z.leb_spec (Z.abs days) Effects.MAX_DELTA_DAYS).
  - split; [by intros [= <-]|by intros [_ ->]].
  - split; [done|lia].
Qed.

Lemma shift_returns t delta t' :
  Effects.shift lim t delta = inr t'
  ↔ Z.abs delta ≤ Effects.timedelta_max lim
    ∧ Effects.timestamp_min lim ≤ t + delta ≤ Effects.timestamp_max lim
    ∧ t' = t + delta.
Proof.
  unfold Effects.shift.
  destruct (Z.leb_spec (Z.abs delta) (Effects.timedelta_max lim)); [|split; [done|lia]].
  destruct (Z.leb_spec (Effects.timestamp_min lim) (t + delta));
    destruct (Z.leb_spec (t + delta) (Effects.timestamp_max lim)); cbn;
    (split; [try done; intros [= <-]; lia|try lia; by intros (_ & _ & ->)]).
Qed.

(** When line 58 gives a start date, and which. *)
Lemma start_of_returns now h start :
  Effects.start_of lim now h = inr start
  ↔ Z.abs h ≤ Effects.MAX_DELTA_DAYS
    ∧ Z.abs (timedelta h) ≤ Effects.timedelta_max lim
    ∧ timedelta 1 ≤ Effects.timedelta_max lim
    ∧ Effects.timestamp_min lim ≤ now - timedelta h ≤ Effects.timestamp_max lim
    ∧ Effects.timestamp_min lim ≤ now - timedelta h + timedelta 1
      ≤ Effects.timestamp_max lim
    ∧ start = now - timedelta h + timedelta 1.
Proof.
  unfold Effects.start_of.
  destruct (Effects.checked_timedelta h) as [e|back] eqn:Hback.
  - split; [done|]. intros (Hh & _).
    assert (Effects.checked_timedelta h = inr (timedelta h)) as Hret
      by (by apply checked_timedelta_returns).
    congruence.
  - apply checked_timedelta_returns in Hback as [Hh ->].
    destruct (Effects.shift lim now (- timedelta h)) as [e|earlier] eqn:Hearlier.
    + split; [done|]. intros (_ & Hfit & _ & Hrange & _).
      assert (Effects.shift lim now (- timedelta h) = inr (now + - timedelta h)) as Hret.
      { apply shift_returns. lia. }
      congruence.
    + apply shift_returns in Hearlier as (Hfit & Hrange & ->).
      rewrite shift_returns.
      assert (Z.abs (timedelta 1) = timedelta 1) as -> by done.
      split.
      * intros (Hday & Hrange' & ->). split_and!; lia.
      * intros (_ & _ & Hday & _ & Hrange' & ->). split_and!; lia.
Qed.

(** What the constructor call comes to: the exception of [os.makedirs], or
    else that of line 58, or else that of line 71, or else the downloader
    and the events of [__init__]. *)
Lemma construct_outcome now now' ticker interval chunk_days historical_days output_dir :
  construct now now' ticker interval chunk_days historical_days output_dir
  = match makedirs output_dir with
    | Some e => (inl e, [Makedirs output_dir])
    | None =>
        let resolved_h := resolve_historical_days interval historical_days in
        let resolved_c := resolve_chunk_days interval chunk_days in
        match Effects.start_of lim now resolved_h.1 with
        | inl e => (inl e, Makedirs output_dir :: resolved_h.2)
        | inr start =>
            match Effects.checked_timedelta resolved_c.1 with
            | inl e => (inl e, Makedirs output_dir :: resolved_h.2 ++ resolved_c.2)
            | inr _ =>
                let built := __init__ now now' ticker interval chunk_days historical_days
                               output_dir in
                (inr built.1, built.2)
            end
        end
    end.
Proof.
  unfold Effects.construct, __init__.
  destruct (makedirs output_dir) as [e|]; [done|].
  destruct (resolve_historical_days _ _) as [h out_h]. cbn [fst snd].
  destruct (Effects.start_of lim now h) as [e|start] eqn:Hstart; [done|].
  apply start_of_returns in Hstart as (_ & _ & _ & _ & _ & ->).
  destruct (resolve_chunk_days _ _) as [c out_c]. cbn [fst snd].
  destruct (Effects.checked_timedelta c) as [e|chunk] eqn:Hchunk; [done|].
  apply checked_timedelta_returns in Hchunk as [_ ->].
  by destruct (adjust_dates _ _).
Qed.

(** C2, as the code has it.  The lookback [h] and the chunk size [c] that
    the constructor resolves obey the limits whatever the caller supplies
    (or leaves out): for a minute interval [h ≤ 30], a supplied value above
    30 being replaced by 30 and any other kept; for the interval ["1m"]
    [c ≤ 8], a supplied value above 8 being replaced by 8 and any other
    kept.  A downloader that the constructor returns is built from [h] and
    [c].  The constructor returns one exactly when [os.makedirs] does not
    raise, [h] and [c] are days that [timedelta] takes, and the start date
    [now - h days + 1 day] can be computed within the range of
    [pd.Timestamp]: a value above its limit is replaced before it is used
    and so cannot make the constructor raise, any other value can. *)
Theorem resolved_request_is_clamped
    now now' ticker interval chunk_days historical_days output_dir :
  let h := (resolve_historical_days interval historical_days).1 in
  let c := (resolve_chunk_days interval chunk_days).1 in
  let built := construct now now' ticker interval chunk_days historical_days output_dir in
  (interval ∈ minute_intervals → h ≤ 30)
  ∧ (interval = "1m" → c ≤ 8)
  ∧ (∀ x, historical_days = Some x → interval ∈ minute_intervals → h = Z.min x 30)
  ∧ (∀ x, chunk_days = Some x → interval = "1m" → c = Z.min x 8)
  ∧ (∀ self, built.1 = inr self →
       (self, built.2)
       = __init__ now now' ticker interval chunk_days historical_days output_dir
       ∧ start_date self = now - timedelta h + timedelta 1
       ∧ max_chunk self = timedelta c)
  ∧ ((∃ self, built.1 = inr self)
     ↔ makedirs output_dir = None
       ∧ Z.abs h ≤ 999999999
       ∧ Z.abs c ≤ 999999999
       ∧ Z.abs (timedelta h) ≤ Effects.timedelta_max lim
       ∧ timedelta 1 ≤ Effects.timedelta_max lim
       ∧ Effects.timestamp_min lim ≤ now - timedelta h ≤ Effects.timestamp_max lim
       ∧ Effects.timestamp_min lim ≤ now - timedelta h + timedelta 1
         ≤ Effects.timestamp_max lim).
Proof.
  intros h c built.
  assert (built
          = match makedirs output_dir with
            | Some e => (inl e, [Makedirs output_dir])
            | None =>
                match Effects.start_of lim now h with
                | inl e => (inl e, Makedirs output_dir
                                   :: (resolve_historical_days interval historical_days).2)
                | inr start =>
                    match Effects.checked_timedelta c with
                    | inl e => (inl e, Makedirs output_dir
                                       :: (resolve_historical_days interval historical_days).2
                                       ++ (resolve_chunk_days interval chunk_days).2)
                    | inr _ =>
                        ((inr (__init__ now now' ticker interval chunk_days historical_days
                                 output_dir).1),
                         (__init__ now now' ticker interval chunk_days historical_days
                            output_dir).2)
                    end
                end
            end) as Hbuilt by apply construct_outcome.
  clearbody built.
  destruct (init_fields now now' ticker interval chunk_days historical_days output_dir)
    as (Hs & _ & Hc & _).
  fold h in Hs. fold c in Hc.
  split_and!.
  - subst h. unfold resolve_historical_days. intros Hin%mem_spec. rewrite Hin.
    destruct historical_days as [x|]; simpl; [|lia].
    destruct (Z.ltb_spec 30 x); simpl; lia.
  - subst c. unfold resolve_chunk_days. intros ->.
    destruct chunk_days as [x|]; simpl; [|lia].
    destruct (Z.ltb_spec 8 x); simpl; lia.
  - subst h. unfold resolve_historical_days. intros x -> Hin%mem_spec. rewrite Hin.
    destruct (Z.ltb_spec 30 x); simpl; lia.
  - subst c. unfold resolve_chunk_days. intros x -> ->. simpl.
    destruct (Z.ltb_spec 8 x); simpl; lia.
  - intros self. rewrite Hbuilt.
    destruct (makedirs output_dir); [done|].
    destruct (Effects.start_of lim now h); [done|].
    destruct (Effects.checked_timedelta c); [done|].
    cbn [fst snd]. intros [= <-]. split; [by destruct (__init__ _ _ _ _ _ _ _)|done].
  - rewrite Hbuilt. split.
    + intros [self Hself]. destruct (makedirs output_dir); [done|].
      destruct (Effects.start_of lim now h) as [e|start] eqn:Hstart; [done|].
      destruct (Effects.checked_timedelta c) as [e|chunk] eqn:Hchunk; [done|].
      apply start_of_returns in Hstart as (? & ? & ? & ? & ? & _).
      apply checked_timedelta_returns in Hchunk as [? _]. done.
    + intros (-> & Hh & Hcd & Hfit & Hday & Hearlier & Hstart).
      assert (Effects.start_of lim now h = inr (now - timedelta h + timedelta 1)) as ->
        by (by apply start_of_returns).
      assert (Effects.checked_timedelta c = inr (timedelta c)) as ->
        by (by apply checked_timedelta_returns).
      by eexists.
Qed.

End resolver.

(** C2, as the specification words it, fails: for five-minute data no branch
    touches a supplied chunk of ten thousand million days, and line 71
    raises [OverflowError] instead of returning a downloader; and for
    one-minute data a supplied lookback of as many days back to front is
    below the limit and kept, and line 58 raises. *)
Lemma construct_raises_for_chunk_of_1e10_days :
  (Effects.construct Effects.pandas_ns (λ _, None) Sample.noon Sample.noon
     "BTC-USD" "5m" (Some 10000000000) None "out").1
  = inl "OverflowError"
  ∧ (Effects.construct Effects.pandas_ns (λ _, None) Sample.noon Sample.noon
       "BTC-USD" "1m" None (Some (-10000000000)) "out").1
    = inl "OverflowError".
Proof. split; reflexivity. Qed.

(** For one-minute data the same chunk, and a lookback as long, are
    replaced by 8 and 30 days before they are used. *)
Example construct_clamps_1e10_days :
  (Effects.construct Effects.pandas_ns (λ _, None) Sample.noon Sample.noon
     "BTC-USD" "1m" (Some 10000000000) (Some 10000000000) "out").1
  = inr {| ticker := "BTC-USD"; interval := "1m"; output_dir := "out";
           start_date := Sample.noon - timedelta 29; end_date := Sample.noon;
           max_chunk := timedelta 8 |}.
Proof. reflexivity. Qed.

(** A lookback beyond the range of [pd.Timestamp] raises for hourly data. *)
Example construct_raises_for_lookback_of_200000_days :
  ∃ e, (Effects.construct Effects.pandas_ns (λ _, None) Sample.noon Sample.noon
          "BTC-USD" "1h" None (Some 200000) "out").1 = inl e.
Proof. by eexists. Qed.

(** An output directory that cannot be made raises before anything else. *)
Example construct_raises_for_directory :
  Effects.construct Effects.pandas_ns (λ _, Some "PermissionError") Sample.noon Sample.noon
    "BTC-USD" "1m" None None "/out"
  = (inl "PermissionError", [Makedirs "/out"]).
Proof. reflexivity. Qed.

(** * The walk of a downloader *)
Section partition.

Variable yf_download : string → Z → Z → string → exn + DataFrame.

Local Abbreviation loop := (while_loop yf_download).

Lemma timedelta_pos days : 1 ≤ days → 0 < timedelta days.
Proof. unfold timedelta, DAY. lia. Qed.

Lemma iterations_enough chunk e cur :
  0 < chunk → e - cur ≤ Z.of_nat (iterations chunk e cur) * chunk.
Proof.
  intros Hpos. unfold iterations.
  destruct (Z.le_gt_cases e cur) as [Hle|Hlt]; [nia|].
  rewrite Z2Nat.id by (apply Z.div_pos; lia).
  pose proof (Z.mod_pos_bound (e - cur + chunk - 1) chunk Hpos).
  pose proof (Z.div_mod (e - cur + chunk - 1) chunk). nia.
Qed.

(** With a positive chunk, a run from the initial state exits, having
    fetched exactly the windows of the walk from [start_date] to
    [end_date]. *)
Lemma loop_walks self :
  0 < max_chunk self →
  ∃ st, loop (iterations (max_chunk self) (end_date self) (start_date self)) self (initial self)
        = Some st
        ∧ walk (max_chunk self) (end_date self) (start_date self) (windows (out st))
        ∧ written (out st) = []
        ∧ data_frames st
          = omap (λ w, (fetch_chunk yf_download self (window_start w) (window_end w)).1)
                 (windows (out st)).
Proof.
  intros Hpos.
  destruct (loop_exits yf_download self
              (iterations (max_chunk self) (end_date self) (start_date self))
              (initial self) Hpos) as [st Hrun].
  { by apply iterations_enough. }
  exists st. split; [done|].
  apply loop_run in Hrun as (ws & Hwalk & Hws & Hwr & Hdf). simpl in *.
  by rewrite Hws, Hwr, Hdf.
Qed.



End partition.

(** * Thirty days in chunks of eight *)
Section thirty_by_eight.

Variable yf_download : string → Z → Z → string → exn + DataFrame.

(** C1, as the code has it.  A downloader resolved to a lookback of 30 days
    and chunks of 8 days, built at [now] with a clock that does not run
    backwards, starts at [now - 29 days]: its loop exits having fetched
    exactly four windows, which span 8, 8, 8 and 5 days and cover the 29
    days [[now - 29 days, now)] without gap or overlap. *)
Theorem walk_of_30_days_by_8
    now now' ticker interval chunk_days historical_days output_dir :
  now ≤ now' →
  (resolve_historical_days interval historical_days).1 = 30 →
  (resolve_chunk_days interval chunk_days).1 = 8 →
  let self := (__init__ now now' ticker interval chunk_days historical_days output_dir).1 in
  ∃ fuel st, while_loop yf_download fuel self (initial self) = Some st
    ∧ windows (out st)
      = [Window (now - timedelta 29) (now - timedelta 21);
         Window (now - timedelta 21) (now - timedelta 13);
         Window (now - timedelta 13) (now - timedelta 5);
         Window (now - timedelta 5) now]
    ∧ span <$> windows (out st) = timedelta <$> [8; 8; 8; 5]
    ∧ (∀ t, (∃ w, w ∈ windows (out st) ∧ window_start w ≤ t < window_end w)
            ↔ now - timedelta 29 ≤ t < now).
Proof.
  intros Hclock Hh Hc self.
  destruct (init_fields now now' ticker interval chunk_days historical_days output_dir)
    as (Hstart & Hend & Hchunk & _).
  fold self in Hstart, Hend, Hchunk. rewrite Hh in Hstart. rewrite Hc in Hchunk.
  rewrite Z.min_l in Hend by done.
  assert (0 < max_chunk self) as Hpos by (rewrite Hchunk; by apply timedelta_pos).
  destruct (loop_walks yf_download self Hpos) as (st & Hrun & Hwalk & _).
  eexists _, st. split; [exact Hrun|].
  assert (windows (out st)
          = [Window (now - timedelta 29) (now - timedelta 21);
             Window (now - timedelta 21) (now - timedelta 13);
             Window (now - timedelta 13) (now - timedelta 5);
             Window (now - timedelta 5) now]) as Hws.
  { apply (walk_unique _ _ _ _ _ Hwalk).
    rewrite Hstart, Hend, Hchunk. unfold timedelta, DAY. simpl.
    repeat split; try lia; f_equal; lia. }
  split; [exact Hws|]. split.
  - rewrite Hws. unfold span, timedelta, DAY. simpl. repeat f_equal; lia.
  - intros t. rewrite (walk_cover _ _ Hpos _ _ t Hwalk), Hstart, Hend.
    unfold timedelta, DAY. lia.
Qed.

End thirty_by_eight.

(** C1, as the specification words it, fails: at noon of 4 November 2026 no
    run of the loop of the one-minute downloader, built for a lookback of 30
    days, fetches windows spanning 8, 8, 8 and 6 days, and none fetches
    windows that add up to 30 days. *)
Lemma walk_of_30_days_by_8_is_not_8_8_8_6 :
  ¬ ∃ fuel st,
      while_loop Sample.offline fuel Sample.btc_1m (initial Sample.btc_1m) = Some st
      ∧ (span <$> windows (out st) = timedelta <$> [8; 8; 8; 6]
         ∨ foldr Z.add 0 (span <$> windows (out st)) = timedelta 30).
Proof.
  intros (fuel & st & Hrun & Hspans).
  destruct (while_loop Sample.offline 4 Sample.btc_1m (initial Sample.btc_1m))
    as [st4|] eqn:Hrun4; [|by vm_compute in Hrun4].
  rewrite (loop_deterministic _ _ _ _ _ _ _ Hrun Hrun4) in Hspans.
  vm_compute in Hrun4. injection Hrun4 as <-.
  vm_compute in Hspans. by destruct Hspans.
Qed.

(** * The walk of the sample downloader *)

Lemma walk_of_30_days_by_8_witness :
  ∃ fuel st,
    while_loop Sample.offline fuel Sample.btc_1m (initial Sample.btc_1m) = Some st
    ∧ span <$> windows (out st) = timedelta <$> [8; 8; 8; 5].
Proof.
  destruct (walk_of_30_days_by_8 Sample.offline Sample.noon Sample.noon "BTC-USD" "1m" None (Some 30)
              "btc/intraday/short-term")
    as (fuel & st & Hrun & _ & Hspans & _); [lia|reflexivity|reflexivity|].
  exists fuel, st. split; [exact Hrun|exact Hspans].
Defined.



(** * Keeping first occurrences *)
Section keep_first.

Context {A K : Type} `{EqDecision K} (key : A → K).

Implicit Types (l : list A) (seen : list K).



Lemma keep_first_from_fresh seen l x :
  x ∈ keep_first_from key seen l → key x ∉ seen.
Proof.
  revert seen. induction l as [|y l IH]; intros seen; simpl.
  - by intros ?%elem_of_nil.
  - destruct (decide (key y ∈ seen)) as [|Hy]; [by apply IH|].
    intros [->|Hin%IH]%elem_of_cons; [done|].
    intros ?. apply Hin, elem_of_cons. by right.
Qed.

Lemma keep_first_from_NoDup seen l : NoDup (key <$> keep_first_from key seen l).
Proof.
  revert seen. induction l as [|x l IH]; intros seen; simpl; [constructor|].
  destruct (decide _); [by apply IH|].
  rewrite fmap_cons. apply NoDup_cons. split; [|by apply IH].
  intros (y & Hk & Hy%keep_first_from_fresh)%list_elem_of_fmap.
  apply Hy, elem_of_cons. by left.
Qed.

(** A list without repeated keys, none of them seen, is kept whole. *)
Lemma keep_first_from_id seen l :
  NoDup (key <$> l) → (∀ x, x ∈ l → key x ∉ seen) → keep_first_from key seen l = l.
Proof.
  revert seen. induction l as [|x l IH]; intros seen Hnd Hfresh; [done|].
  rewrite fmap_cons in Hnd. apply NoDup_cons in Hnd as [Hx Hnd]. simpl.
  rewrite decide_False by (apply Hfresh, elem_of_cons; by left).
  f_equal. apply IH; [done|].
  intros y Hy [Heq|Hin]%elem_of_cons.
  - apply Hx. rewrite <-Heq. by apply list_elem_of_fmap_2.
  - apply (Hfresh y); [apply elem_of_cons; by right|done].
Qed.

Lemma keep_first_idempotent l : keep_first key (keep_first key l) = keep_first key l.
Proof.
  apply keep_first_from_id; [apply keep_first_from_NoDup|].
  intros x _. apply not_elem_of_nil.
Qed.






End keep_first.


Lemma keep_first_inj {A K K' : Type} `{EqDecision K, EqDecision K'}
    (key : A → K) (g : K → K') `{!Inj (=) (=) g} (l : list A) :
  keep_first (g ∘ key) l = keep_first key l.
Proof.
  unfold keep_first.
  enough (∀ seen, keep_first_from (g ∘ key) (g <$> seen) l = keep_first_from key seen l)
    as Hgen by apply (Hgen []).
  induction l as [|x l IH]; intros seen; [done|]. simpl.
  rewrite (decide_ext (g (key x) ∈ g <$> seen) (key x ∈ seen))
    by apply (list_elem_of_fmap_inj g).
  destruct (decide _); [apply IH|]. f_equal. apply (IH (key x :: seen)).
Qed.

Lemma keep_first_ext {A K : Type} `{EqDecision K} (key key' : A → K) (l : list A) :
  (∀ x, x ∈ l → key x = key' x) → keep_first key l = keep_first key' l.
Proof.
  unfold keep_first. generalize (@nil K) as seen.
  induction l as [|x l IH]; intros seen Hext; [done|]. simpl.
  rewrite <-(Hext x) by (apply elem_of_cons; by left).
  destruct (decide _).
  - apply IH. intros y Hy. apply Hext, elem_of_cons. by right.
  - f_equal. apply IH. intros y Hy. apply Hext, elem_of_cons. by right.
Qed.

(** * Normalisation *)
Section normaliser.

Lemma flatten_label_plain l : nlevels (flatten_label <$> l) = None.
Proof. by destruct l as [|[] ?]. Qed.

Lemma rename_label_absent old new (cols : list label) :
  Name old ∉ cols → rename_label old new <$> cols = cols.
Proof.
  induction cols as [|l cols IH]; [done|].
  rewrite not_elem_of_cons. intros [Hne Hnot]. rewrite fmap_cons, IH by done.
  f_equal. destruct l as [s|]; [|done]. simpl.
  rewrite bool_decide_eq_false_2; [done|congruence].
Qed.

(** The labels after normalisation, whichever branch of line 98 is taken. *)
Lemma flatten_columns_columns df :
  columns (flatten_columns df)
  = (rename_label "Datetime" "Date" ∘ flatten_label) <$> columns df.
Proof.
  unfold flatten_columns. simpl. unfold contains.
  change (map flatten_label (columns df)) with (flatten_label <$> columns df).
  rewrite flatten_label_plain.
  destruct (bool_decide_reflect (Name "Datetime" ∈ flatten_label <$> columns df)) as [Hin|Hnot].
  - simpl. by rewrite flatten_label_plain, <-list_fmap_compose.
  - simpl. rewrite list_fmap_compose. by rewrite rename_label_absent.
Qed.

(** C6.  Normalisation keeps the number and the order of the labels, and
    the label at each position becomes: for a tuple, its leading component
    (["Date"] when that component is ["Datetime"]); for the plain label
    ["Datetime"], ["Date"]; for any other plain label, ["Date"] included,
    itself. *)
Theorem flatten_columns_renames df :
  length (columns (flatten_columns df)) = length (columns df)
  ∧ ∀ i l, columns df !! i = Some l →
      ∃ l', columns (flatten_columns df) !! i = Some l'
        ∧ (∀ first rest, l = Tuple first rest → first ≠ "Datetime" → l' = Name first)
        ∧ (∀ rest, l = Tuple "Datetime" rest → l' = Name "Date")
        ∧ (l = Name "Datetime" → l' = Name "Date")
        ∧ (l = Name "Date" → l' = Name "Date")
        ∧ (∀ s, l = Name s → s ≠ "Datetime" → l' = l).
Proof.
  rewrite flatten_columns_columns. split; [by rewrite length_fmap|].
  intros i l Hi. eexists. split; [by rewrite list_lookup_fmap, Hi|].
  split_and!.
  - intros first rest -> Hne. simpl. by rewrite bool_decide_eq_false_2.
  - by intros rest ->.
  - by intros ->.
  - by intros ->.
  - intros s -> Hne. simpl. by rewrite bool_decide_eq_false_2.
Qed.

(** The index column of a reset two-level table, labelled
    [("Datetime", "")], ends up labelled ["Date"]. *)
Lemma flatten_columns_renames_witness :
  ∃ l', columns (flatten_columns
                   {| columns := [Tuple "Datetime" [""]; Tuple "Close" ["BTC-USD"]];
                      index_name := None; rows := [] |}) !! 0%nat = Some l'
        ∧ l' = Name "Date".
Proof.
  destruct (flatten_columns_renames
    {| columns := [Tuple "Datetime" [""]; Tuple "Close" ["BTC-USD"]];
       index_name := None; rows := [] |}) as [_ H].
  destruct (H 0%nat (Tuple "Datetime" [""]) eq_refl) as (l' & Hl' & _ & Hdate & _).
  exists l'. split; [exact Hl'|exact (Hdate [""] eq_refl)].
Defined.

(** C10.  Normalisation leaves the rows, in their order and with all their
    cells, and the index as they are, and changes no more of the columns
    than their labels: there are as many after as before. *)
Theorem flatten_columns_keeps_rows df :
  rows (flatten_columns df) = rows df
  ∧ index_name (flatten_columns df) = index_name df
  ∧ length (columns (flatten_columns df)) = length (columns df).
Proof.
  split_and!.
  - unfold flatten_columns. by destruct (contains _ _).
  - unfold flatten_columns. by destruct (contains _ _).
  - by rewrite flatten_columns_columns, length_fmap.
Qed.

(** The equities script renames the same label: on a table with plain
    labels, once the index has become a column, the label ["Datetime"]
    becomes ["Date"] and every other label stays. *)
Lemma stocks_normalise_labels data data' :
  nlevels (columns data) = None → Stocks.normalise data = inr data' →
  columns data' = rename_label "Datetime" "Date" <$> (index_label data :: columns data)
  ∧ rows data' = range_index ((λ r, Row (row_index r) (row_index r :: row_cells r)) <$> rows data).
Proof.
  intros Hplain. unfold Stocks.normalise, reset_index.
  destruct (bool_decide _); [done|]. intros [= <-].
  assert (nlevels (index_label data :: columns data) = None) as Hplain'.
  { unfold index_label. by rewrite Hplain. }
  unfold contains, rename. cbn [columns]. rewrite Hplain'.
  destruct (bool_decide_reflect (Name "Datetime" ∈ index_label data :: columns data));
    cbn [columns rows]; [done|].
  by rewrite rename_label_absent.
Qed.

End normaliser.

(** * Concatenation and removal of repeats *)
Section aggregator.

Lemma range_index_cells rs : row_cells <$> range_index rs = row_cells <$> rs.
Proof.
  unfold range_index. rewrite fmap_imap.
  rewrite <-(imap_const row_cells). by apply imap_ext.
Qed.

Lemma filter_zip_absent (c : label) (cs : list label) (vs : list value) :
  c ∉ cs → filter (λ p, p.1 = c) (zip cs vs) = [].
Proof.
  revert vs. induction cs as [|c' cs IH]; intros vs Hnot; [done|].
  apply not_elem_of_cons in Hnot as [Hne Hnot]. destruct vs as [|v vs]; [done|].
  simpl. rewrite filter_cons_False by (simpl; congruence). by apply IH.
Qed.

(** When the first label is not repeated, the key of a row is its first cell. *)
Lemma subset_key_first c cs r :
  c ∉ cs → subset_key (c :: cs) c r = option_list (head (row_cells r)).
Proof.
  intros Hnot. unfold subset_key. destruct (row_cells r) as [|v vs]; [done|].
  simpl. rewrite filter_cons_True by done.
  by rewrite filter_zip_absent.
Qed.

#[local] Instance option_list_inj {A} : Inj (=) (=) (@option_list A).
Proof. by intros [x|] [y|] [=]; subst. Qed.


Lemma flat_map_fmap {A B C} (f : B → C) (g : A → list B) (l : list A) :
  f <$> flat_map g l = flat_map (λ x, f <$> g x) l.
Proof. induction l as [|x l IH]; [done|]. simpl. by rewrite fmap_app, IH. Qed.

(** Removing repeats on a label that is not repeated compares first cells. *)
Lemma drop_duplicates_first c cs result :
  columns result = c :: cs → c ∉ cs →
  ∃ once, drop_repeats result = inr once
    ∧ columns once = c :: cs
    ∧ index_name once = index_name result
    ∧ rows once = keep_first (head ∘ row_cells) (rows result).
Proof.
  intros Hcols Hnot. unfold drop_repeats, drop_duplicates. rewrite Hcols.
  rewrite bool_decide_eq_true_2 by (apply elem_of_cons; by left).
  eexists. split; [done|]. simpl. split_and!; try done.
  rewrite (keep_first_ext _ (option_list ∘ (head ∘ row_cells))).
  - apply (keep_first_inj (head ∘ row_cells) option_list).
  - intros r _. by apply subset_key_first.
Qed.

(** Tables none of which has a label twice can be concatenated; the labels
    of the result are unique as well. *)
Lemma concat_unique_labels df rest :
  Forall (λ d, NoDup (columns d)) (df :: rest) →
  ∃ cols, concat (df :: rest)
          = inr {| columns := cols; index_name := None;
                   rows := range_index (flat_map (aligned cols) (df :: rest)) |}
    ∧ NoDup cols
    ∧ (columns df ≠ [] → cols ≠ [])
    ∧ (∀ cols', Forall (λ d, columns d = cols') (df :: rest) → cols = cols').
Proof.
  intros Hall. unfold concat.
  destruct (forallb (λ d, bool_decide (columns d = columns df)) rest) eqn:Hsame.
  - exists (columns df). split; [done|]. split; [by apply Forall_cons in Hall as [? _]|].
    split; [done|]. by intros cols' [? _]%Forall_cons.
  - exists (keep_first id (flat_map columns (df :: rest))).
    assert (forallb (λ d, bool_decide (NoDup (columns d))) (df :: rest) = true) as ->.
    { apply forallb_forall. intros d Hd%list_elem_of_In. apply bool_decide_eq_true.
      by apply (proj1 (Forall_forall _ _) Hall). }
    split; [done|]. split_and!.
    + rewrite <-(list_fmap_id (keep_first _ _)). apply keep_first_from_NoDup.
    + simpl. by destruct (columns df).
    + intros cols' [Hdf Hrest]%Forall_cons. exfalso.
      apply not_true_iff_false in Hsame. apply Hsame, forallb_forall.
      intros d Hd%list_elem_of_In. apply bool_decide_eq_true. rewrite Hdf.
      by apply (proj1 (Forall_forall _ _) Hrest).
Qed.

(** Such tables, when the first of them has a column, aggregate to a table. *)
Lemma aggregate_returns df rest :
  columns df ≠ [] → Forall (λ d, NoDup (columns d)) (df :: rest) →
  ∃ result, aggregate (df :: rest) = inr result.
Proof.
  intros Hsome Hnd.
  destruct (concat_unique_labels df rest Hnd) as (cols & Hcat & Hcols & Hne & _).
  destruct cols as [|c cs]; [by destruct Hne|].
  apply NoDup_cons in Hcols as [Hnot _].
  destruct (drop_duplicates_first c cs
              {| columns := c :: cs; index_name := None;
                 rows := range_index (flat_map (aligned (c :: cs)) (df :: rest)) |}
              eq_refl Hnot) as (result & Hres & _).
  exists result. unfold aggregate. by rewrite Hcat.
Qed.






(** C9.  Removing repeats from a table that has a column returns a table,
    and removing repeats from that table returns it unchanged. *)
Theorem drop_repeats_idempotent result :
  (columns result ≠ [] → ∃ once, drop_repeats result = inr once)
  ∧ (∀ once, drop_repeats result = inr once → drop_repeats once = inr once).
Proof.
  unfold drop_repeats, drop_duplicates. split.
  - destruct (columns result) as [|c cs]; [done|]. intros _.
    rewrite bool_decide_eq_true_2 by (apply elem_of_cons; by left). eauto.
  - intros once. destruct (columns result) as [|c cs] eqn:Hcols; [done|].
    rewrite bool_decide_eq_true_2 by (apply elem_of_cons; by left).
    intros [= <-]. simpl.
    rewrite bool_decide_eq_true_2 by (apply elem_of_cons; by left).
    by rewrite keep_first_idempotent.
Qed.

Lemma drop_repeats_idempotent_witness :
  ∃ once, drop_repeats Sample.early = inr once ∧ drop_repeats once = inr once.
Proof.
  destruct (drop_repeats_idempotent Sample.early) as [Hreturns Hsame].
  destruct Hreturns as [once Honce]; [discriminate|].
  exists once. split; [exact Honce|exact (Hsame once Honce)].
Defined.

End aggregator.

(** * What one chunk contributes *)
Section isolation.

Variable yf_download : string → Z → Z → string → exn + DataFrame.
Variable self : IntradayDataDownloader.t.

Local Abbreviation fragment w :=
  (fetch_chunk yf_download self (window_start w) (window_end w)).1.


Lemma download_finish fuel st save_csv :
  while_loop yf_download fuel self (initial self) = Some st →
  download yf_download fuel self save_csv
  = Some ((finish self save_csv (data_frames st)).1,
          out st ++ (finish self save_csv (data_frames st)).2).
Proof. intros Hrun. unfold download. rewrite Hrun. simpl. by destruct (finish _ _ _). Qed.

Lemma finish_result save_csv dfs :
  (finish self save_csv dfs).1
  = match dfs with [] => inr empty_frame | _ :: _ => aggregate dfs end.
Proof.
  unfold finish. destruct dfs as [|d dfs]; [done|].
  destruct (aggregate _); [done|]. by destruct save_csv.
Qed.


End isolation.

(** * Runs on the sample inputs *)

Example resolve_historical_days_5m_90 :
  resolve_historical_days "5m" (Some 90) = (30, [Print HistoricalDaysAdjusted]).
Proof. reflexivity. Qed.

Example resolve_historical_days_1h_default : resolve_historical_days "1h" None = (90, []).
Proof. reflexivity. Qed.

Example resolve_historical_days_1h_500 : resolve_historical_days "1h" (Some 500) = (500, []).
Proof. reflexivity. Qed.

Example resolve_historical_days_unknown : resolve_historical_days "1d" None = (30, []).
Proof. reflexivity. Qed.

Example resolve_chunk_days_1m_20 :
  resolve_chunk_days "1m" (Some 20) = (8, [Print ChunkDaysAdjusted]).
Proof. reflexivity. Qed.

Example resolve_chunk_days_5m_default : resolve_chunk_days "5m" None = (15, []).
Proof. reflexivity. Qed.

(** A table of the provider, with its two-level labels and its index named
    ["Datetime"], once the index is a column and the labels are flat. *)
Example normalise_bars :
  sum_map id flatten_columns (reset_index (Sample.bars 20732))
  = inr {| columns := [Name "Date"; Name "Close"; Name "Volume"];
           index_name := None;
           rows := [Row (Num 0) [Stamp (20732 * DAY); Num 10; Num 100];
                    Row (Num 1) [Stamp (20732 * DAY + 60000000000); Num 11; Num 90]] |}.
Proof. reflexivity. Qed.

(** The one-minute downloader against the flaky provider: the second window
    comes back empty and the third raises, and still all four windows are
    fetched and the bars of the first and of the last are returned and saved. *)
Example download_flaky :
  ∃ result evs,
    download Sample.flaky 4 Sample.btc_1m true = Some (inr result, evs)
    ∧ date ∘ window_start <$> windows evs = [20732; 20740; 20748; 20756]
    ∧ columns result = [Name "Date"; Name "Close"; Name "Volume"]
    ∧ row_cells <$> rows result
      = [[Stamp (20732 * DAY); Num 10; Num 100];
         [Stamp (20732 * DAY + 60000000000); Num 11; Num 90];
         [Stamp (20756 * DAY); Num 10; Num 100];
         [Stamp (20756 * DAY + 60000000000); Num 11; Num 90]]
    ∧ written evs = ["btc/intraday/short-term/BTC-USD_1m.csv"].
Proof. eexists _, _. split; [by vm_compute|]. by vm_compute. Qed.

(** A chunk of zero days never gets anywhere. *)
Example download_stuck fuel :
  download Sample.offline fuel
    (__init__ Sample.noon Sample.noon "BTC-USD" "5m" (Some 0) None "out").1 true = None.
Proof.
  unfold download. rewrite loop_diverges; [done| |]; by vm_compute.
Qed.

(** * The downloader and its exceptions *)
Section effects.

Import Run.

Variable yf_download : string → Z → Z → string → exn + DataFrame.
Variable to_csv : string → DataFrame → option exn.




(** With a [to_csv] that never raises this is [download]. *)
Lemma effects_download_quiet fuel self save_csv :
  Effects.download yf_download (λ _ _, None) fuel self save_csv
  = download yf_download fuel self save_csv.
Proof.
  unfold Effects.download, download.
  destruct (while_loop _ _ _ _) as [st|]; [|done]. cbn.
  unfold Effects.finish, finish. destruct (data_frames st) as [|d dfs]; [done|].
  destruct (aggregate _) as [e|result]; [done|]. by destruct save_csv.
Qed.

End effects.
(** * More on the downloader *)
Section downloader.

Import Run.

Variable yf_download : string → Z → Z → string → exn + DataFrame.

(** X1.  [adjust_dates] pulls an end date that lies after the clock back to
    the clock and touches nothing else: afterwards the end date is the
    earlier of the two, a notice is printed exactly when it moved, and a
    second call with the same clock changes nothing. *)
Theorem adjust_dates_pulls_end_back now self :
  let self' := (adjust_dates now self).1 in
  end_date self' = Z.min (end_date self) now
  ∧ start_date self' = start_date self
  ∧ max_chunk self' = max_chunk self
  ∧ ticker self' = ticker self
  ∧ interval self' = interval self
  ∧ output_dir self' = output_dir self
  ∧ ((adjust_dates now self).2 = [] ↔ end_date self ≤ now)
  ∧ adjust_dates now self' = (self', []).
Proof.
  unfold adjust_dates.
  destruct (Z.ltb_spec now (end_date self)) as [Hlt|Hge]; cbn.
  - rewrite Z.ltb_irrefl. split_and!; try done; try lia. split; [done|lia].
  - destruct (Z.ltb_spec now (end_date self)); [lia|].
    split_and!; try done; lia.
Qed.


(** X2.  A downloader built for a lookback of one day or less has an empty
    range, whatever the clock: [download] calls the provider for no window,
    writes no file and returns the empty table, without entering its loop. *)
Theorem lookback_of_one_day_fetches_nothing
    now now' ticker interval chunk_days historical_days output_dir fuel save_csv :
  (resolve_historical_days interval historical_days).1 ≤ 1 →
  download yf_download fuel
    (__init__ now now' ticker interval chunk_days historical_days output_dir).1 save_csv
  = Some (inr empty_frame, [Print NothingDownloaded]).
Proof.
  intros Hh.
  destruct (init_fields now now' ticker interval chunk_days historical_days output_dir)
    as (Hstart & Hend & _).
  set (self := (__init__ _ _ _ _ _ _ _).1) in *.
  assert (while_loop yf_download fuel self (initial self) = Some (initial self)) as Hrun.
  { destruct fuel; simpl;
      (destruct (Z.ltb_spec (start_date self) (end_date self)) as [Hlt|]; [|done]);
      rewrite Hstart, Hend in Hlt; unfold timedelta, DAY in Hlt; lia. }
  unfold download. by rewrite Hrun.
Qed.

(** X3.  The constructor accepts a chunk of zero days, and [download] then
    does not return: with a clock that does not run backwards and a
    lookback of two days or more, no number of iterations reaches the exit
    of the loop. *)
Theorem chunk_of_zero_days_never_returns
    now now' ticker interval historical_days output_dir fuel save_csv :
  now ≤ now' → 2 ≤ (resolve_historical_days interval historical_days).1 →
  download yf_download fuel
    (__init__ now now' ticker interval (Some 0) historical_days output_dir).1 save_csv
  = None.
Proof.
  intros Hclock Hh.
  destruct (init_fields now now' ticker interval (Some 0) historical_days output_dir)
    as (Hstart & Hend & Hchunk & _).
  set (self := (__init__ _ _ _ _ _ _ _).1) in *.
  assert (max_chunk self = 0) as Hzero.
  { rewrite Hchunk. unfold resolve_chunk_days. by destruct (bool_decide _). }
  unfold download. rewrite loop_diverges; [done|lia|].
  cbn. rewrite Hstart, Hend. unfold timedelta, DAY. lia.
Qed.

Lemma flatten_columns_rest df :
  rows (flatten_columns df) = rows df ∧ index_name (flatten_columns df) = index_name df.
Proof. unfold flatten_columns. by destruct (contains _ _). Qed.

Lemma flatten_columns_eq df :
  flatten_columns df
  = {| columns := (rename_label "Datetime" "Date" ∘ flatten_label) <$> columns df;
       index_name := index_name df; rows := rows df |}.
Proof.
  pose proof (flatten_columns_columns df) as Hc.
  destruct (flatten_columns_rest df) as [Hr Hi].
  destruct (flatten_columns df). cbn in *. by subst.
Qed.

Lemma normal_label_plain l :
  ∃ s, (rename_label "Datetime" "Date" ∘ flatten_label) l = Name s ∧ s ≠ "Datetime".
Proof.
  destruct l as [s|s r]; cbn; destruct (bool_decide_reflect (s = "Datetime")); eauto.
Qed.

(** X4.  Normalising a normalised table changes nothing, and a normalised
    table has only plain labels, none of them ["Datetime"]. *)
Theorem flatten_columns_idempotent df :
  flatten_columns (flatten_columns df) = flatten_columns df
  ∧ ∀ l, l ∈ columns (flatten_columns df) → ∃ s, l = Name s ∧ s ≠ "Datetime".
Proof.
  split.
  - rewrite (flatten_columns_eq (flatten_columns df)), flatten_columns_eq. cbn.
    f_equal. rewrite <-list_fmap_compose. apply list_fmap_ext. intros _ l _. cbn.
    destruct (normal_label_plain l) as (s & Hs & Hne). cbn in Hs. rewrite Hs. cbn.
    by rewrite bool_decide_eq_false_2.
  - rewrite flatten_columns_columns.
    intros l (l0 & -> & _)%list_elem_of_fmap. apply normal_label_plain.
Qed.

(** X5.  A table with rows that the provider returns, and whose index is
    not yet among its columns, is collected with one more column in front:
    labelled by the index, flattened and renamed like the others, so
    ["Date"] for an index named ["Datetime"], and holding, row by row, the
    entry of the index, followed by the cells of the row as they were.  The
    rows are numbered afresh, and nothing is printed. *)
Theorem fetched_table_is_normalised self s e raw :
  yf_download (ticker self) (date s) (date e) (interval self) = inr raw →
  empty raw = false → index_label raw ∉ columns raw →
  ∃ df, fetch_chunk yf_download self s e = (Some df, [])
    ∧ columns df
      = (rename_label "Datetime" "Date" ∘ flatten_label) <$> (index_label raw :: columns raw)
    ∧ (index_name raw = Some "Datetime" → head (columns df) = Some (Name "Date"))
    ∧ row_cells <$> rows df = (λ r, row_index r :: row_cells r) <$> rows raw
    ∧ (∀ i r, rows df !! i = Some r → row_index r = Num (Z.of_nat i)).
Proof.
  intros Hret Hrows Hfree. unfold fetch_chunk. rewrite Hret, Hrows. cbn [negb].
  unfold reset_index. rewrite bool_decide_eq_false_2 by done.
  eexists. split; [done|]. rewrite flatten_columns_eq. cbn [columns rows]. split_and!.
  - done.
  - intros Hname. unfold index_label. rewrite Hname.
    by destruct (nlevels (columns raw)).
  - rewrite range_index_cells.
    change (map ?f ?l) with (f <$> l). by rewrite <-list_fmap_compose.
  - intros i r. unfold range_index. rewrite list_lookup_imap.
    destruct (_ !! i); [|done]. by intros [= <-].
Qed.

(** X6.  A table of the provider that already has a column labelled like
    its index cannot be reset: the [ValueError] is caught, the window
    contributes no table, and the error is printed. *)
Theorem index_clash_is_skipped self s e raw :
  yf_download (ticker self) (date s) (date e) (interval self) = inr raw →
  empty raw = false → index_label raw ∈ columns raw →
  fetch_chunk yf_download self s e
  = (None, [Print (DownloadError (date s) (date e) "ValueError")]).
Proof.
  intros Hret Hrows Hclash. unfold fetch_chunk. rewrite Hret, Hrows. cbn [negb].
  unfold reset_index. by rewrite bool_decide_eq_true_2.
Qed.




Lemma written_saved evs : written evs = (saved evs).*1.
Proof.
  induction evs as [|ev evs IH]; [done|].
  destruct ev; cbn; try done. unfold written, saved in *. cbn. by rewrite IH.
Qed.

Lemma saved_app evs evs' : saved (evs ++ evs') = saved evs ++ saved evs'.
Proof. apply omap_app. Qed.

Lemma loop_saves_nothing self fuel st :
  while_loop yf_download fuel self (initial self) = Some st → saved (out st) = [].
Proof.
  intros (ws & _ & _ & Hwr & _)%loop_run. cbn in Hwr.
  rewrite written_saved in Hwr. by apply fmap_nil_inv in Hwr.
Qed.

Variable to_csv : string → DataFrame → option exn.

(** X8.  With [save_csv=False] [download] never calls [to_csv], and what it
    does is the same whatever [to_csv] would do.  With [save_csv=True] it
    does the same up to the end, and then calls [to_csv] at most once, on
    the table that is returned with [save_csv=False]: when that call
    raises, its exception leaves [download]; otherwise the same value is
    returned.  The one call returns exactly when the other returns or
    raises. *)
Theorem without_save_csv_nothing_is_written self fuel :
  match Effects.download yf_download to_csv fuel self false with
  | Some (r, evs) =>
      saved evs = []
      ∧ (∀ other, Effects.download yf_download other fuel self false = Some (r, evs))
      ∧ ∃ r' saving,
          Effects.download yf_download to_csv fuel self true = Some (r', evs ++ saving)
          ∧ ((r' = r ∧ saved saving = [])
             ∨ ∃ result, r = inr result ∧ saved saving = [(filename self, result)]
                 ∧ r' = match to_csv (filename self) result with
                        | Some e => inl e
                        | None => inr result
                        end)
  | None => Effects.download yf_download to_csv fuel self true = None
  end.
Proof.
  unfold Effects.download.
  destruct (while_loop yf_download fuel self (initial self)) as [st|] eqn:Hrun; [|done].
  cbn. pose proof (loop_saves_nothing _ _ _ Hrun) as Hout.
  unfold Effects.finish. fold (filename self). destruct (data_frames st) as [|df dfs].
  - split; [by rewrite saved_app, Hout|]. split; [done|].
    exists (inr empty_frame), []. rewrite !app_nil_r. split; [done|by left].
  - destruct (aggregate (df :: dfs)) as [x|result].
    + split; [by rewrite saved_app, Hout|]. split; [done|].
      exists (inl x), []. rewrite !app_nil_r. split; [done|by left].
    + split; [by rewrite saved_app, Hout|]. split; [done|].
      rewrite (app_nil_r (out st)).
      destruct (to_csv (filename self) result) as [failure|] eqn:Hsave.
      * eexists _, _. split; [done|]. right. exists result. by rewrite Hsave.
      * eexists _, _. split; [done|]. right. exists result. by rewrite Hsave.
Qed.


End downloader.

(** * The keys of an aggregate *)
Section keys.

Import Run.



(** What [aggregate] returns for tables without a repeated label. *)
Lemma aggregate_unique_labels df rest :
  columns df ≠ [] → Forall (λ d, NoDup (columns d)) (df :: rest) →
  ∃ result, aggregate (df :: rest) = inr result
    ∧ rows result
      = keep_first (head ∘ row_cells)
          (range_index (flat_map (aligned (columns result)) (df :: rest)))
    ∧ ∀ cols, Forall (λ d, columns d = cols) (df :: rest) → columns result = cols.
Proof.
  intros Hsome Hnd.
  destruct (concat_unique_labels df rest Hnd) as (cols & Hcat & Hcols & Hne & Hshared).
  destruct cols as [|c cs]; [by destruct Hne|].
  apply NoDup_cons in Hcols as [Hnot _].
  destruct (drop_duplicates_first c cs
              {| columns := c :: cs; index_name := None;
                 rows := range_index (flat_map (aligned (c :: cs)) (df :: rest)) |}
              eq_refl Hnot) as (once & Hres & Hc & _ & Hrows).
  exists once. unfold aggregate. by rewrite Hcat, Hres, Hc.
Qed.

Lemma keys_range_index rs : keys (range_index rs) = keys rs.
Proof.
  unfold keys. rewrite !list_fmap_compose. by rewrite range_index_cells.
Qed.


(** X11.  When the tables have the same labels, none of them twice, and no
    first cell occurs twice in all their rows, aggregating drops nothing:
    the result has these labels and its rows are the rows of the tables,
    one table after the other. *)
Theorem aggregate_without_repeats_is_concatenation dfs cols :
  dfs ≠ [] → cols ≠ [] → NoDup cols → Forall (λ d, columns d = cols) dfs →
  NoDup (keys (flat_map rows dfs)) →
  ∃ result, aggregate dfs = inr result
    ∧ columns result = cols
    ∧ row_cells <$> rows result = flat_map (λ d, row_cells <$> rows d) dfs.
Proof.
  intros Hne Hcols Hnd Hall Hkeys. destruct dfs as [|df rest]; [done|].
  assert (Forall (λ d, NoDup (columns d)) (df :: rest)) as Hnd'.
  { eapply Forall_impl; [exact Hall|]. by intros d ->. }
  assert (columns df ≠ []) as Hsome by (by apply Forall_cons in Hall as [-> _]).
  destruct (aggregate_unique_labels df rest Hsome Hnd') as (result & Hagg & Hrows & Hshared).
  exists result. split; [exact Hagg|].
  specialize (Hshared cols Hall). split; [exact Hshared|].
  assert (flat_map (aligned cols) (df :: rest) = flat_map rows (df :: rest)) as Hsame.
  { clear -Hall. induction Hall as [|d ds Hd _ IH]; [done|].
    cbn. rewrite IH. f_equal. unfold aligned. by rewrite decide_True. }
  rewrite Hrows, Hshared, Hsame. unfold keep_first. rewrite keep_first_from_id.
  - by rewrite range_index_cells, flat_map_fmap.
  - fold (keys (range_index (flat_map rows (df :: rest)))). by rewrite keys_range_index.
  - intros x _. apply not_elem_of_nil.
Qed.

End keys.

(** * Failing chunks *)
Section failing_chunks.

Import Run.

Variable yf_download : string → Z → Z → string → exn + DataFrame.
Variable to_csv : string → DataFrame → option exn.
Variable self : IntradayDataDownloader.t.

Local Abbreviation fragment w :=
  (fetch_chunk yf_download self (window_start w) (window_end w)).1.




End failing_chunks.




(** * The batch run of the first script *)
Section crypto_main.

Import Run CryptoMain.

Local Abbreviation dash := ("-"%char).

Lemma lower_char_idempotent c : Text.lower_char (Text.lower_char c) = Text.lower_char c.
Proof. by destruct c as [[] [] [] [] [] [] [] []]. Qed.

Lemma lower_char_dash c : Text.lower_char c = "-"%char → c = "-"%char.
Proof. by destruct c as [[] [] [] [] [] [] [] []]. Qed.

Lemma lower_chars s :
  String.list_ascii_of_string (Text.lower s)
  = Text.lower_char <$> String.list_ascii_of_string s.
Proof. induction s as [|c s IH]; [done|]. cbn. by rewrite IH. Qed.

Lemma before_chars sep s : sep ∉ String.list_ascii_of_string (Text.before sep s).
Proof.
  induction s as [|c s IH]; cbn; [apply not_elem_of_nil|].
  destruct (bool_decide_reflect (c = sep)); cbn; [apply not_elem_of_nil|].
  apply not_elem_of_cons. split; [congruence|done].
Qed.

Lemma before_absent sep s :
  sep ∉ String.list_ascii_of_string s → Text.before sep s = s.
Proof.
  induction s as [|c s IH]; cbn; [done|].
  intros [Hne Hnot]%not_elem_of_cons.
  destruct (bool_decide_reflect (c = sep)); [congruence|]. by rewrite IH.
Qed.

Lemma before_app sep a b :
  sep ∉ String.list_ascii_of_string a → Text.before sep (a +:+ String sep b) = a.
Proof.
  induction a as [|c a IH]; simpl.
  - intros _. by destruct (bool_decide_reflect (sep = sep)).
  - intros [Hne Hnot]%not_elem_of_cons.
    destruct (bool_decide_reflect (c = sep)); [congruence|]. by rewrite IH.
Qed.

(** X12.  The folder of a ticker is the part of the ticker before its first
    dash, in lower case: it holds no dash, lowering it again changes
    nothing, a ticker without dash gives its own lower case, and what
    comes after the first dash plays no part, so that tickers which agree
    before it share the folder. *)
Theorem folder_name_shape ticker :
  (dash ∉ String.list_ascii_of_string (folder_name ticker))
  ∧ Text.lower (folder_name ticker) = folder_name ticker
  ∧ (dash ∉ String.list_ascii_of_string ticker → folder_name ticker = Text.lower ticker)
  ∧ (∀ base quote, dash ∉ String.list_ascii_of_string base →
       folder_name (base +:+ "-" +:+ quote) = Text.lower base).
Proof.
  unfold folder_name. split_and!.
  - rewrite lower_chars. intros (c & Hc & Hin)%list_elem_of_fmap.
    symmetry in Hc. apply lower_char_dash in Hc as ->. by apply before_chars in Hin.
  - induction (Text.before _ _) as [|c s IH]; [done|].
    cbn. by rewrite lower_char_idempotent, IH.
  - intros Hnot. by rewrite before_absent.
  - intros base quote Hnot.
    change ("-" +:+ quote) with (String "-"%char quote). by rewrite before_app.
Qed.

Variable yf_download : string → Z → Z → string → exn + DataFrame.
Variable clock : nat → Z.

(** The table of the run respects the limits of the constructor: nothing
    is adjusted, and six chunks cover every lookback. *)
Lemma resolved_table interval :
  interval ∈ intervalos →
  ∃ h c, resolve_historical_days interval (historicos !! interval) = (h, [])
    ∧ resolve_chunk_days interval None = (c, [])
    ∧ 1 ≤ h ∧ 1 ≤ c ∧ h - 1 ≤ 6 * c.
Proof.
  unfold intervalos. rewrite !elem_of_cons, elem_of_nil.
  intros [->|[->|[->|[->|[->|[->|[->|[->|[]]]]]]]]];
    eexists _, _; (split; [by vm_compute|]); (split; [by vm_compute|]); lia.
Qed.

Lemma init_events_quiet now now' ticker interval chunk_days historical_days output_dir :
  windows (__init__ now now' ticker interval chunk_days historical_days output_dir).2 = []
  ∧ written (__init__ now now' ticker interval chunk_days historical_days output_dir).2 = [].
Proof.
  unfold __init__, resolve_historical_days, resolve_chunk_days, adjust_dates.
  destruct historical_days, chunk_days;
    repeat (match goal with |- context [if ?b then _ else _] => destruct b end); done.
Qed.

Lemma fetches_downloader evs : fetches (Downloader <$> evs) = windows evs.
Proof.
  induction evs as [|ev evs IH]; [done|].
  destruct ev; cbn; try done. unfold fetches, windows in *. cbn. by rewrite IH.
Qed.


Lemma fetches_app evs evs' : fetches (evs ++ evs') = fetches evs ++ fetches evs'.
Proof. apply omap_app. Qed.

Lemma files_app evs evs' : files (evs ++ evs') = files evs ++ files evs'.
Proof. apply omap_app. Qed.

(** What a [download] that returns has fetched and written. *)
Lemma download_trace self fuel save_csv r evs :
  download yf_download fuel self save_csv = Some (r, evs) →
  ∃ st, while_loop yf_download fuel self (initial self) = Some st
    ∧ windows evs = windows (out st)
    ∧ (written evs = [] ∨ written evs = [filename self]).
Proof.
  unfold download.
  destruct (while_loop yf_download fuel self (initial self)) as [st|] eqn:Hrun; [|done].
  cbn. apply loop_run in Hrun as Hst. destruct Hst as (ws & _ & _ & Hwr & _).
  cbn in Hwr. intros Hret. exists st. split; [done|]. revert Hret.
  unfold finish. destruct (data_frames st) as [|df dfs].
  - intros [= <- <-]. rewrite windows_app, written_app, Hwr, app_nil_r. by split; [|left].
  - destruct (aggregate (df :: dfs)) as [x|result]; [|destruct save_csv];
      intros [= <- <-]; rewrite windows_app, written_app, Hwr, app_nil_r;
      (split; [done|]); first [by left | by right].
Qed.

Lemma run_interval_returns fuel ticker pair interval :
  (6 ≤ fuel)%nat → interval ∈ intervalos →
  is_Some (run_interval yf_download clock fuel ticker pair interval).
Proof.
  intros Hfuel (h & c & Hh & Hc & Hh1 & Hc1 & Hsix)%resolved_table.
  unfold run_interval.
  destruct (init_fields (clock (2 * pair)) (clock (2 * pair + 1)) ticker interval None
              (historicos !! interval) (output_directory ticker))
    as (Hstart & Hend & Hchunk & _).
  destruct (__init__ _ _ _ _ _ _ _) as [hd built]. cbn in *.
  rewrite Hh in Hstart. rewrite Hc in Hchunk. cbn in *.
  destruct (loop_exits yf_download hd 6 (initial hd)) as [st Hrun].
  { rewrite Hchunk. by apply timedelta_pos. }
  { cbn. rewrite Hstart, Hend, Hchunk. unfold timedelta, DAY. lia. }
  apply loop_fuel_mono with (fuel' := fuel) in Hrun; [|done].
  unfold download. rewrite Hrun. cbn. by destruct (finish _ _ _).
Qed.

Lemma for_each_returns {A} (body : nat → A → option ((exn + unit) * list event)) n l :
  (∀ k x, x ∈ l → is_Some (body k x)) → is_Some (for_each body n l).
Proof.
  revert n. induction l as [|x l IH]; intros n Hbody; [done|]. cbn.
  destruct (Hbody n x) as [[r evs] ->]; [apply elem_of_cons; by left|]. cbn.
  destruct r; [done|].
  destruct (IH (S n)) as [[r' evs'] ->]; [|done].
  intros k y Hy. apply Hbody, elem_of_cons. by right.
Qed.

(** X13.  The batch run returns or raises, whatever the tickers, the
    provider and the clock: no downloader it builds needs more than six
    iterations of its loop. *)
Theorem main_terminates fuel tickers :
  (6 ≤ fuel)%nat → is_Some (main yf_download clock fuel tickers).
Proof.
  intros Hfuel. apply for_each_returns. intros n ticker _. unfold run_ticker.
  destruct (for_each_returns
              (λ j, run_interval yf_download clock fuel ticker (length intervalos * n + j))
              0 intervalos) as [[r evs] ->]; [|done].
  intros k interval Hin. by apply run_interval_returns.
Qed.









Lemma for_each_fetches {A} (body : nat → A → option ((exn + unit) * list event))
    (count : A → nat) n l evs :
  (∀ k x evs', x ∈ l → body k x = Some (inr (), evs') → length (fetches evs') = count x) →
  for_each body n l = Some (inr (), evs) →
  length (fetches evs) = sum_list (count <$> l).
Proof.
  revert n evs. induction l as [|x l IH]; intros n evs Hbody; cbn.
  - by intros [= <-].
  - destruct (body n x) as [[r0 evs0]|] eqn:Hx; [|done]. cbn.
    destruct r0 as [e|[]]; [done|].
    destruct (for_each body (S n) l) as [[r1 evs1]|] eqn:Hrest; [|done]. cbn.
    intros [= -> <-]. rewrite fetches_app, length_app.
    rewrite (Hbody _ _ _ (proj2 (elem_of_cons _ _ _) (or_introl eq_refl)) Hx).
    f_equal. apply (IH (S n)); [|done].
    intros k y evs' Hy. apply Hbody, elem_of_cons. by right.
Qed.

Lemma run_interval_requests fuel ticker pair interval r evs :
  clock (2 * pair)%nat ≤ clock (2 * pair + 1)%nat → interval ∈ intervalos →
  run_interval yf_download clock fuel ticker pair interval = Some (r, evs) →
  length (fetches evs) = requests interval.
Proof.
  intros Hclock Hin. destruct (resolved_table interval Hin)
    as (h & c & Hh & Hc & Hh1 & Hc1 & _).
  unfold run_interval, requests. rewrite Hh, Hc. cbn [fst].
  destruct (init_fields (clock (2 * pair)) (clock (2 * pair + 1)) ticker interval None
              (historicos !! interval) (output_directory ticker))
    as (Hstart & Hend & Hchunk & _).
  pose proof (init_events_quiet (clock (2 * pair)) (clock (2 * pair + 1)) ticker interval
                None (historicos !! interval) (output_directory ticker)) as [Hquiet _].
  destruct (__init__ _ _ _ _ _ _ _) as [hd built]. cbn [fst snd] in *.
  rewrite Hh in Hstart. rewrite Hc in Hchunk. cbn [fst] in *.
  rewrite Z.min_l in Hend by done.
  destruct (download yf_download fuel hd true) as [[r' evs']|] eqn:Hdl; [|done].
  cbn [mbind option_bind]. intros [= <- <-].
  change (fetches (_ :: _ :: ?l)) with (fetches l).
  rewrite fetches_downloader, windows_app, Hquiet. cbn [app].
  destruct (download_trace _ _ _ _ _ Hdl) as (st & Hrun & -> & _).
  apply loop_run in Hrun as (ws & Hwalk & -> & _). cbn [initial out windows omap list_omap app].
  assert (0 < max_chunk hd) as Hpos by (rewrite Hchunk; by apply timedelta_pos).
  apply (walk_length _ _ Hpos) in Hwalk.
  - unfold iterations. rewrite <-Hchunk.
    replace (timedelta h - timedelta 1 + max_chunk hd - 1)
      with (end_date hd - start_date hd + max_chunk hd - 1)
      by (rewrite Hstart, Hend; lia).
    cbn [initial current_start] in Hwalk. rewrite <-Hwalk. lia.
  - cbn [initial current_start]. rewrite Hstart, Hend. unfold timedelta, DAY. lia.
Qed.

(** X15.  With a clock that does not run backwards, a batch run that ends
    without exception has called the provider 28 times for every ticker:
    4, 2, 2, 2, 2, 6, 4 and 6 times for its eight intervals. *)
Theorem main_calls_provider_28_times_a_ticker fuel tickers evs :
  (∀ k, clock k ≤ clock (S k)) →
  main yf_download clock fuel tickers = Some (inr (), evs) →
  requests <$> intervalos = [4; 2; 2; 2; 2; 6; 4; 6]%nat
  ∧ length (fetches evs) = (28 * length tickers)%nat.
Proof.
  intros Hclock Hmain. split; [by vm_compute|].
  rewrite (for_each_fetches _ (λ _, 28%nat) _ _ _) with (2 := Hmain).
  - clear. induction tickers as [|t ts IH]; [done|]. cbn in *. lia.
  - intros n ticker evs' _. unfold run_ticker.
    destruct (for_each _ 0%nat intervalos) as [[r2 evs2]|] eqn:Hintervals; [|done].
    cbn [mbind option_bind]. intros [= -> <-].
    change (fetches (_ :: _ :: ?l)) with (fetches l).
    rewrite (for_each_fetches _ requests _ _ _) with (2 := Hintervals); [by vm_compute|].
    intros j interval evs3 Hin Hpair.
    eapply run_interval_requests; [|done..].
    replace (2 * (length intervalos * n + j) + 1)%nat
      with (S (2 * (length intervalos * n + j))) by lia.
    apply Hclock.
Qed.

End crypto_main.

(** * The ticker file of the equities script *)
Section ticker_file.

Import StocksMain.

Local Abbreviation chars := String.list_ascii_of_string.
Local Abbreviation of_chars := String.string_of_list_ascii.

Lemma lstrip_clean l : Text.clean_front (Text.lstrip l).
Proof.
  induction l as [|c l IH]; [done|]. cbn.
  by destruct (Text.is_space c) eqn:Hc.
Qed.

Lemma lstrip_id l : Text.clean_front l → Text.lstrip l = l.
Proof. destruct l as [|c l]; [done|]. cbn. by intros ->. Qed.

Lemma lstrip_snoc l c :
  Text.is_space c = false → ∃ l', Text.lstrip (l ++ [c]) = l' ++ [c].
Proof.
  intros Hc. induction l as [|d l IH]; cbn.
  - rewrite Hc. by exists [].
  - destruct (Text.is_space d); [done|]. by exists (d :: l).
Qed.

Lemma rstrip_clean l : Text.clean_front l → Text.clean_front (rev (Text.lstrip (rev l))).
Proof.
  destruct l as [|c l]; [done|]. cbn. intros Hc.
  destruct (lstrip_snoc (rev l) c Hc) as [l' ->].
  by rewrite rev_app_distr.
Qed.

Lemma strip_chars s :
  chars (Text.strip s) = rev (Text.lstrip (rev (Text.lstrip (chars s)))).
Proof. unfold Text.strip. by rewrite String.list_ascii_of_string_of_list_ascii. Qed.

Lemma strip_idempotent s : Text.strip (Text.strip s) = Text.strip s.
Proof.
  unfold Text.strip at 1. rewrite strip_chars.
  set (m := Text.lstrip (chars s)).
  rewrite (lstrip_id (rev (Text.lstrip (rev m)))) by apply rstrip_clean, lstrip_clean.
  rewrite rev_involutive, (lstrip_id (Text.lstrip (rev m))) by apply lstrip_clean. done.
Qed.

(** A line counts when, stripped, it is not empty and is no comment. *)
Local Abbreviation counts line :=
  (Text.strip line ≠ "" ∧ Text.startswith (Text.strip line) "#" = false).

(** X16.  The tickers read from [stocks.txt] are the stripped forms of its
    lines, in their order, without those of blank lines and of comments:
    every ticker is the stripped form of a line, is not empty, does not
    start with [#] and has no white space left at either end. *)
Theorem read_tickers_shape f :
  read_tickers f `sublist_of` (Text.strip <$> f)
  ∧ ∀ t, t ∈ read_tickers f ↔
         (∃ line, line ∈ f ∧ t = Text.strip line) ∧ t ≠ ""
         ∧ Text.startswith t "#" = false ∧ Text.strip t = t.
Proof.
  unfold read_tickers. split.
  - apply fmap_sublist, sublist_filter.
  - intros t. rewrite list_elem_of_fmap. split.
    + intros (line & -> & [[Hne Hcomment] Hin]%list_elem_of_filter).
      split; [by exists line|]. by rewrite strip_idempotent.
    + intros ((line & Hin & ->) & Hne & Hcomment & _).
      exists line. split; [done|]. by apply list_elem_of_filter.
Qed.

(** X17.  Reading the tickers is idempotent: a file that lists the tickers
    read, one a line, reads as the same tickers. *)
Theorem read_tickers_idempotent f : read_tickers (read_tickers f) = read_tickers f.
Proof.
  assert (∀ l : list string,
            Forall (λ t, counts t ∧ Text.strip t = t) l → read_tickers l = l) as Hfix.
  { intros l Hl. unfold read_tickers.
    induction Hl as [|t l [Ht Hs] _ IH]; [done|].
    rewrite filter_cons_True by done. rewrite fmap_cons, IH. by rewrite Hs. }
  apply Hfix, Forall_forall. intros t Ht.
  apply read_tickers_shape in Ht as (_ & Hne & Hcomment & Hs). by rewrite Hs.
Qed.

End ticker_file.

(** * The batch run of the equities script *)
Section stocks_main.

Import StocksMain.

Variable history : string → string → string → exn + DataFrame.
Variable to_csv : string → DataFrame → option exn.
Variable cwd : string.

Local Abbreviation main := (StocksMain.main history to_csv cwd).
Local Abbreviation table := (StocksMain.table history).
Local Abbreviation output_file := (StocksMain.output_file cwd).
Local Abbreviation normalisable := (StocksMain.normalisable history).

Lemma asked_app evs evs' : asked (evs ++ evs') = asked evs ++ asked evs'.
Proof. apply omap_app. Qed.

Lemma saves_app evs evs' : saves (evs ++ evs') = saves evs ++ saves evs'.
Proof. apply omap_app. Qed.

Lemma for_each_all {A} (body : A → (exn + unit) * list event) l :
  (∀ x, x ∈ l → (body x).1 = inr ()) →
  for_each body l = (inr (), l ≫= λ x, (body x).2).
Proof.
  induction l as [|x l IH]; intros Hall; [done|]. cbn.
  pose proof (Hall x (proj2 (elem_of_cons _ _ _) (or_introl eq_refl))) as Hx.
  destruct (body x) as [r evs]. cbn in Hx. subst r.
  rewrite IH; [done|]. intros y Hy. apply Hall, elem_of_cons. by right.
Qed.

Lemma for_each_raises {A} (body : A → (exn + unit) * list event) l e :
  (for_each body l).1 = inl e →
  ∃ x evs, x ∈ l ∧ (body x).1 = inl e ∧ (for_each body l).2 = evs ++ (body x).2.
Proof.
  induction l as [|x l IH]; [done|]. cbn.
  destruct (body x) as [[e'|[]] evs] eqn:Hx.
  - cbn. intros [= ->]. exists x, []. rewrite Hx. split; [apply elem_of_cons; by left|done].
  - destruct (for_each body l) as [r' evs'] eqn:Hrest. cbn in *. intros ->.
    destruct (IH eq_refl) as (y & pre & Hy & Hraise & ->).
    exists y, (evs ++ pre). split; [apply elem_of_cons; by right|].
    split; [done|]. by rewrite <-app_assoc.
Qed.

(** What one ticker and one interval do: the provider is called once; the
    table, if there is one, is handed to [to_csv]; and an exception comes
    out exactly when normalising raises it. *)
Lemma run_interval_trace ticker interval :
  let run := run_interval history to_csv ticker
               (IntradayDataDownloader.path_join cwd ticker) interval in
  asked run.2 = [(ticker, interval, period interval)]
  ∧ (∀ e, run.1 = inl e ↔
          ∃ data, history ticker interval (period interval) = inr data
                  ∧ empty data = false ∧ Stocks.normalise data = inl e)
  ∧ (∀ e, run.1 = inl e →
          ∃ evs, run.2 = evs ++ [History ticker interval (period interval)])
  ∧ (run.1 = inr () → saves run.2
                      = option_list (pair (output_file ticker interval) <$> table ticker interval)).
Proof.
  unfold run_interval, StocksMain.table, StocksMain.output_file, period.
  destruct (history _ _ _) as [x|data]; cbn.
  - split_and!; try done. intros e. split; [done|]. by intros (? & [=] & _).
  - destruct (empty data) eqn:Hrows; cbn.
    + split_and!; try done. intros e. split; [done|].
      intros (? & [= <-] & ? & _). congruence.
    + destruct (Stocks.normalise data) as [x|data'] eqn:Hnorm; cbn.
      * split_and!; try done.
        -- intros e. split; [intros [= <-]; by exists data|].
           intros (? & [= <-] & _ & Hn). congruence.
        -- intros e _. by eexists [_].
      * destruct (to_csv _ _) as [failure|]; cbn; (split_and!; try done);
          intros e; (split; [done|]); intros (? & [= <-] & _ & Hn); congruence.
Qed.

Lemma read_tickers_none f :
  (∀ line, line ∈ f →
     Text.strip line = "" ∨ Text.startswith (Text.strip line) "#" = true) →
  read_tickers f = [].
Proof.
  unfold read_tickers. induction f as [|line f IH]; intros Hnone; [done|].
  rewrite filter_cons_False.
  - apply IH. intros l Hl. apply Hnone, elem_of_cons. by right.
  - intros [Hne Hcomment].
    destruct (Hnone line) as [?|?]; [apply elem_of_cons; by left|done|congruence].
Qed.

(** X18.  When [stocks.txt] holds only blank lines and comments, the run
    does nothing at all: it calls no provider, makes no directory, writes
    no file, prints nothing and returns. *)
Theorem main_without_tickers f :
  (∀ line, line ∈ f →
     Text.strip line = "" ∨ Text.startswith (Text.strip line) "#" = true) →
  main (Some f) = (inr (), []).
Proof. intros Hnone. unfold StocksMain.main. by rewrite read_tickers_none. Qed.

Lemma asked_bind {A} (g : A → list event) l :
  asked (l ≫= g) = l ≫= λ x, asked (g x).
Proof. induction l as [|x l IH]; [done|]. by rewrite !bind_cons, asked_app, IH. Qed.

Lemma saves_bind {A} (g : A → list event) l :
  saves (l ≫= g) = l ≫= λ x, saves (g x).
Proof. induction l as [|x l IH]; [done|]. by rewrite !bind_cons, saves_app, IH. Qed.

Lemma bind_ext_in {A B} (g h : A → list B) l :
  (∀ x, x ∈ l → g x = h x) → l ≫= g = l ≫= h.
Proof.
  induction l as [|x l IH]; intros Hext; [done|]. rewrite !bind_cons.
  rewrite Hext by (apply elem_of_cons; by left).
  rewrite IH; [done|]. intros y Hy. apply Hext, elem_of_cons. by right.
Qed.

(** A run in which normalising never raises. *)
Lemma run_ticker_all ticker :
  normalisable →
  let run := run_ticker history to_csv cwd ticker in
  run.1 = inr ()
  ∧ asked run.2 = (λ interval, (ticker, interval, period interval)) <$> intervals
  ∧ saves run.2
    = omap (λ interval, pair (output_file ticker interval) <$> table ticker interval)
           intervals.
Proof.
  intros Hnorm. unfold run_ticker.
  assert (∀ interval,
            (run_interval history to_csv ticker
               (IntradayDataDownloader.path_join cwd ticker) interval).1 = inr ()) as Hok.
  { intros interval.
    destruct (run_interval _ _ _ _ _).1 as [e|[]] eqn:Hr; [|done].
    destruct (run_interval_trace ticker interval) as (_ & Hraise & _).
    apply Hraise in Hr as (data & Hret & Hrows & Hn).
    destruct (Hnorm _ _ _ Hret Hrows) as [data' Hn']. congruence. }
  rewrite for_each_all by (intros; apply Hok). cbn [fst snd]. split; [done|].
  change (asked ([?a; ?b] ++ ?l)) with (asked l).
  change (saves ([?a; ?b] ++ ?l)) with (saves l).
  rewrite asked_bind, saves_bind. split.
  - induction intervals as [|i l IH]; [done|]. rewrite bind_cons, fmap_cons.
    destruct (run_interval_trace ticker i) as (-> & _). by rewrite IH.
  - induction intervals as [|i l IH]; [done|]. rewrite bind_cons.
    destruct (run_interval_trace ticker i) as (_ & _ & _ & Hsaves).
    rewrite (Hsaves (Hok i)), IH. cbn. by destruct (table ticker i).
Qed.

(** Where the exception of one ticker comes from: the run of one of its
    intervals, the call of the provider that returned the offending table
    being the last. *)
Lemma run_ticker_raises ticker e :
  (run_ticker history to_csv cwd ticker).1 = inl e →
  ∃ interval data,
    interval ∈ intervals
    ∧ history ticker interval (period interval) = inr data
    ∧ empty data = false ∧ Stocks.normalise data = inl e
    ∧ ∃ evs, (run_ticker history to_csv cwd ticker).2
             = evs ++ [History ticker interval (period interval)].
Proof.
  unfold run_ticker.
  destruct (for_each _ intervals) as [r evs] eqn:Hintervals. cbn [fst snd]. intros ->.
  pose proof (for_each_raises
                (run_interval history to_csv ticker
                   (IntradayDataDownloader.path_join cwd ticker)) intervals e) as Hinner.
  rewrite Hintervals in Hinner.
  destruct (Hinner eq_refl) as (interval & pre' & Hinterval & Hraise & Hevs).
  cbn [snd] in Hevs. subst evs.
  destruct (run_interval_trace ticker interval) as (_ & Hwhy & Hlast & _).
  destruct (Hlast e Hraise) as [pre'' ->].
  apply Hwhy in Hraise as (data & Hret & Hrows & Hn).
  exists interval, data. split_and!; try done.
  eexists. by rewrite !app_assoc.
Qed.

End stocks_main.

(** * The equities run and the file system *)
Section stocks_effects.

Import StocksMain.

Variable history : string → string → string → exn + DataFrame.
Variable to_csv : string → DataFrame → option exn.
Variable getcwd : exn + string.
Variable makedirs : string → option exn.

Local Abbreviation main := (StocksEffects.main history to_csv getcwd makedirs).
Local Abbreviation run_ticker := (StocksEffects.run_ticker history to_csv getcwd makedirs).
Local Abbreviation table := (StocksMain.table history).
Local Abbreviation normalisable := (StocksMain.normalisable history).
Local Abbreviation folders_can_be_made := (StocksEffects.folders_can_be_made makedirs).
Local Abbreviation path_join := IntradayDataDownloader.path_join.

Lemma for_each_ext {A} (body body' : A → (exn + unit) * list event) l :
  (∀ x, x ∈ l → body x = body' x) → for_each body l = for_each body' l.
Proof.
  induction l as [|x l IH]; intros Hext; [done|]. cbn.
  rewrite Hext by (apply elem_of_cons; by left).
  rewrite IH; [done|]. intros y Hy. apply Hext, elem_of_cons. by right.
Qed.

(** When the working directory is known and the folder of the ticker can be
    made, the ticker is run as in [StocksMain]. *)
Lemma run_ticker_course cwd ticker :
  getcwd = inr cwd → makedirs (path_join cwd ticker) = None →
  run_ticker ticker = StocksMain.run_ticker history to_csv cwd ticker.
Proof. intros Hcwd Hdir. unfold StocksEffects.run_ticker. by rewrite Hcwd, Hdir. Qed.

Lemma main_course cwd f :
  getcwd = inr cwd → folders_can_be_made cwd f →
  main (inr f) = StocksMain.main history to_csv cwd (Some f).
Proof.
  intros Hcwd Hdirs. unfold StocksEffects.main, StocksMain.main.
  apply for_each_ext. intros ticker Hticker. apply run_ticker_course; [done|].
  by apply Hdirs.
Qed.

(** X19.  When [stocks.txt] can be read, [os.getcwd] returns, [os.makedirs]
    raises for the folder of no ticker and normalising raises for no table
    that the provider returns, the run returns, and it has called the
    provider exactly once for every ticker read and every one of the
    thirteen intervals, ticker after ticker and in the order of the
    intervals, with the period that the table gives for the interval,
    whether earlier calls or writes failed or not. *)
Theorem main_asks_every_pair cwd f :
  getcwd = inr cwd → folders_can_be_made cwd f → normalisable →
  (main (inr f)).1 = inr ()
  ∧ asked (main (inr f)).2
    = read_tickers f ≫= λ ticker,
        (λ interval, (ticker, interval, period interval)) <$> intervals.
Proof.
  intros Hcwd Hdirs Hnorm. rewrite (main_course cwd f Hcwd Hdirs). unfold StocksMain.main.
  rewrite for_each_all by (intros; by apply run_ticker_all). split; [done|].
  cbn [snd]. rewrite asked_bind. apply bind_ext_in. intros ticker _.
  by destruct (run_ticker_all history to_csv cwd ticker Hnorm) as (_ & -> & _).
Qed.

(** X20.  In such a run [to_csv] is called exactly for the tickers and
    intervals for which the provider returned a table with rows, in the
    order of the run, each time with the normalised table and with the file
    [os.path.join(os.path.join(cwd, ticker), "<ticker>_<interval>.csv")]. *)
Theorem main_saves_what_it_got cwd f :
  getcwd = inr cwd → folders_can_be_made cwd f → normalisable →
  saves (main (inr f)).2
  = read_tickers f ≫= λ ticker,
      omap (λ interval,
              pair (path_join (path_join cwd ticker)
                      (ticker +:+ "_" +:+ interval +:+ ".csv"))
              <$> table ticker interval)
           intervals.
Proof.
  intros Hcwd Hdirs Hnorm. rewrite (main_course cwd f Hcwd Hdirs). unfold StocksMain.main.
  rewrite for_each_all by (intros; by apply run_ticker_all).
  cbn [snd]. rewrite saves_bind. apply bind_ext_in. intros ticker _.
  by destruct (run_ticker_all history to_csv cwd ticker Hnorm) as (_ & _ & ->).
Qed.

(** X21.  An exception leaves [main] only from outside its [try]
    statements: from reading [stocks.txt], unless it is
    [FileNotFoundError]; from [os.getcwd] or from [os.makedirs] for one of
    the tickers; or from normalising a table with rows that the provider
    returned for one of the tickers and intervals, and then the call of the
    provider that returned this table is the last of the run.  What the
    provider raises and what [to_csv] raises is caught. *)
Theorem main_raises_only_outside_try stocks_txt e :
  (main stocks_txt).1 = inl e →
  (stocks_txt = inl e ∧ e ≠ "FileNotFoundError")
  ∨ ∃ f ticker,
      stocks_txt = inr f ∧ ticker ∈ read_tickers f
      ∧ (getcwd = inl e
         ∨ (∃ cwd, getcwd = inr cwd ∧ makedirs (path_join cwd ticker) = Some e)
         ∨ ∃ interval data,
             interval ∈ intervals
             ∧ history ticker interval (period interval) = inr data
             ∧ empty data = false ∧ Stocks.normalise data = inl e
             ∧ last (asked (main stocks_txt).2)
               = Some (ticker, interval, period interval)).
Proof.
  destruct stocks_txt as [e0|f]; cbn.
  - destruct (bool_decide_reflect (e0 = "FileNotFoundError")); [done|].
    intros [= ->]. by left.
  - intros (ticker & pre & Hticker & Hrun & ->)%for_each_raises.
    right. exists f, ticker. split; [done|]. split; [done|].
    unfold StocksEffects.run_ticker in *.
    destruct getcwd as [e0|cwd]; [left; by injection Hrun as ->|]. right.
    destruct (makedirs (path_join cwd ticker)) as [e0|] eqn:Hdir.
    { left. exists cwd. split; [done|]. by injection Hrun as ->. }
    right.
    destruct (run_ticker_raises history to_csv cwd ticker e Hrun)
      as (interval & data & Hinterval & Hret & Hrows & Hn & evs & Hevs).
    exists interval, data. split_and!; try done.
    unfold StocksMain.run_ticker in Hevs. rewrite Hevs.
    rewrite !asked_app. cbn. rewrite !app_assoc. by rewrite last_snoc.
Qed.

End stocks_effects.

(** * The further results on the sample inputs *)

Lemma lookback_of_one_day_fetches_nothing_witness :
  download Sample.flaky 0
    (__init__ Sample.noon Sample.noon "BTC-USD" "1h" None (Some 1) "out").1 true
  = Some (inr empty_frame, [Print NothingDownloaded]).
Proof.
  apply (lookback_of_one_day_fetches_nothing Sample.flaky). simpl. lia.
Defined.

Lemma chunk_of_zero_days_never_returns_witness :
  download Sample.flaky 1000
    (__init__ Sample.noon Sample.noon "BTC-USD" "5m" (Some 0) None "out").1 true
  = None.
Proof.
  apply (chunk_of_zero_days_never_returns Sample.flaky); [lia|]. simpl. lia.
Defined.

Lemma fetched_table_is_normalised_witness :
  ∃ df, fetch_chunk Sample.flaky Sample.btc_1m (20732 * DAY) (20740 * DAY) = (Some df, [])
    ∧ head (columns df) = Some (Name "Date").
Proof.
  destruct (fetched_table_is_normalised Sample.flaky Sample.btc_1m
              (20732 * DAY) (20740 * DAY) (Sample.bars 20732))
    as (df & Hdf & _ & Hdate & _).
  - reflexivity.
  - reflexivity.
  - apply (bool_decide_unpack _). by vm_compute.
  - exists df. split; [exact Hdf|]. by apply Hdate.
Defined.

Lemma index_clash_is_skipped_witness :
  fetch_chunk (λ _ _ _ _, inr Sample.clashing) Sample.btc_1m 0 DAY
  = (None, [Print (DownloadError 0 1 "ValueError")]).
Proof.
  apply (index_clash_is_skipped (λ _ _ _ _, inr Sample.clashing) Sample.btc_1m 0 DAY
           Sample.clashing).
  - reflexivity.
  - reflexivity.
  - apply (bool_decide_unpack _). by vm_compute.
Defined.




Lemma aggregate_without_repeats_is_concatenation_witness :
  ∃ result, aggregate [Sample.early] = inr result
    ∧ row_cells <$> rows result = [[Stamp 1; Num 10]; [Stamp 2; Num 11]].
Proof.
  destruct (aggregate_without_repeats_is_concatenation [Sample.early]
              [Name "Date"; Name "Close"])
    as (result & Hagg & _ & Hrows).
  - discriminate.
  - discriminate.
  - apply (bool_decide_unpack _). by vm_compute.
  - by repeat constructor.
  - apply (bool_decide_unpack _). by vm_compute.
  - exists result. split; [exact Hagg|exact Hrows].
Defined.

Lemma main_terminates_witness :
  is_Some (CryptoMain.main Sample.flaky Sample.ticking 6 ["BTC-USD"; "ETH-USD"]).
Proof. apply main_terminates. lia. Defined.


Lemma main_calls_provider_28_times_a_ticker_witness :
  ∃ evs, CryptoMain.main Sample.flaky Sample.ticking 6 ["BTC-USD"] = Some (inr (), evs)
    ∧ length (CryptoMain.fetches evs) = 28%nat.
Proof.
  destruct (CryptoMain.main Sample.flaky Sample.ticking 6 ["BTC-USD"])
    as [[[e|[]] evs]|] eqn:Hmain; [by vm_compute in Hmain| |by vm_compute in Hmain].
  exists evs. split; [done|].
  apply (main_calls_provider_28_times_a_ticker Sample.flaky Sample.ticking 6 ["BTC-USD"] evs);
    [|exact Hmain].
  intros k. unfold Sample.ticking. lia.
Defined.

Lemma main_without_tickers_witness :
  StocksMain.main (λ _ _ _, inr Sample.daily) (λ _ _, None) "/home/user"
    (Some ["   "; "# tickers"; ""])
  = (inr (), []).
Proof.
  apply main_without_tickers. intros line.
  rewrite !elem_of_cons, elem_of_nil. intros [->|[->|[->|[]]]]; vm_compute; auto.
Defined.

Lemma sample_normalisable : StocksMain.normalisable (λ _ _ _, inr Sample.daily).
Proof. intros ticker interval data [= <-] _. by eexists. Defined.

Lemma main_asks_every_pair_witness :
  length (StocksMain.asked
            (StocksEffects.main (λ _ _ _, inr Sample.daily) Sample.read_only
               (inr "/home/user") (λ _, None)
               (inr ["AAPL"; "# comment"; " MSFT "])).2) = 26%nat.
Proof.
  destruct (main_asks_every_pair (λ _ _ _, inr Sample.daily) Sample.read_only
              (inr "/home/user") (λ _, None) "/home/user"
              ["AAPL"; "# comment"; " MSFT "] eq_refl) as [_ ->].
  - by intros ticker _.
  - exact sample_normalisable.
  - reflexivity.
Defined.

Lemma main_saves_what_it_got_witness :
  (StocksMain.saves
     (StocksEffects.main (λ _ _ _, inr Sample.daily) Sample.read_only
        (inr "/home/user") (λ _, None) (inr [" MSFT "])).2).*1 !! 0%nat
  = Some "/home/user/MSFT/MSFT_1m.csv".
Proof.
  rewrite (main_saves_what_it_got (λ _ _ _, inr Sample.daily) Sample.read_only
             (inr "/home/user") (λ _, None) "/home/user" [" MSFT "] eq_refl).
  - reflexivity.
  - by intros ticker _.
  - exact sample_normalisable.
Defined.

(** A line of [stocks.txt] that names a file of the working directory:
    [os.makedirs] raises for it, and its exception leaves the run. *)
Lemma main_raises_only_outside_try_witness :
  ∃ f ticker,
    ticker ∈ StocksMain.read_tickers f
    ∧ Sample.no_folder_for "/home/user/stocks.txt"
        (IntradayDataDownloader.path_join "/home/user" ticker)
      = Some "FileExistsError".
Proof.
  destruct (main_raises_only_outside_try (λ _ _ _, inr Sample.daily) (λ _ _, None)
              (inr "/home/user") (Sample.no_folder_for "/home/user/stocks.txt")
              (inr ["AAPL"; "stocks.txt"]) "FileExistsError")
    as [[[=] _]|(f & ticker & _ & Hticker & [[=]|[(cwd & [= <-] & Hdir)|Hreset]])];
    [reflexivity|by exists f, ticker|].
  destruct Hreset as (interval & data & _ & [= <-] & _ & [=] & _).
Defined.

(** The equities run on a ticker file of two tickers: 26 calls of the
    provider, and, with a provider that always returns the daily bars, as
    many files handed to [to_csv]. *)
Example stocks_main_two_tickers :
  let run := StocksMain.main (λ _ _ _, inr Sample.daily) (λ _ _, None) "/home/user"
               (Some ["AAPL"; ""; "# comment"; " MSFT "]) in
  run.1 = inr ()
  ∧ length (StocksMain.asked run.2) = 26%nat
  ∧ (StocksMain.saves run.2).*1 !! 13%nat = Some "/home/user/MSFT/MSFT_1m.csv"
  ∧ columns <$> (StocksMain.saves run.2).*2 !! 0%nat
    = Some [Name "Date"; Name "Open"; Name "Close"].
Proof. by vm_compute. Qed.

(** With a table whose index clashes with a column the equities run stops
    at the first call. *)
Example stocks_main_clash :
  StocksMain.main (λ _ _ _, inr Sample.clashing) (λ _ _, None) "/home/user"
    (Some ["AAPL"; "MSFT"])
  = (inl "ValueError",
     [StocksMain.Print (StocksMain.Processing "AAPL");
      StocksMain.Makedirs "/home/user/AAPL";
      StocksMain.Print (StocksMain.Downloading "1m" "7d" "AAPL");
      StocksMain.History "AAPL" "1m" "7d"]).
Proof. reflexivity. Qed.

(** With the folder of the second ticker failing, the equities run stops
    there: the first ticker has been asked for, the second not at all. *)
Example stocks_main_no_folder :
  let run := StocksEffects.main (λ _ _ _, inr Sample.daily) (λ _ _, None)
               (inr "/home/user") (Sample.no_folder_for "/home/user/stocks.txt")
               (inr ["AAPL"; "stocks.txt"; "MSFT"]) in
  run.1 = inl "FileExistsError"
  ∧ length (StocksMain.asked run.2) = 13%nat
  ∧ last run.2 = Some (StocksMain.Makedirs "/home/user/stocks.txt").
Proof. by vm_compute. Qed.

(** Of the exceptions of reading the ticker file only [FileNotFoundError]
    is caught. *)
Example stocks_main_unreadable :
  StocksEffects.main (λ _ _ _, inr Sample.daily) (λ _ _, None) (inr "/home/user")
    (λ _, None) (inl "FileNotFoundError")
  = (inr (), [StocksMain.Print StocksMain.TickerFileNotFound])
  ∧ StocksEffects.main (λ _ _ _, inr Sample.daily) (λ _ _, None) (inr "/home/user")
      (λ _, None) (inl "PermissionError")
    = (inl "PermissionError", []).
Proof. by vm_compute. Qed.

Example folder_name_btc : CryptoMain.folder_name "BTC-USD" = "btc".
Proof. reflexivity. Qed.
